(** * Horizon Europe coordinator finder: a model of [find_coordinator.py]

    The development embeds the retrieval pipeline of [find_coordinators]
    (corpus preparation, TF-IDF ranking, coordinator look-up and result
    assembly) and settles the properties stated about it.

    Conventions.
    - A table is what [pd.read_csv] gives: a cell is a parsed value (a
      number, a text, or [NaN] for a missing field) and every column has
      its dtype.
    - Python's control flow is kept: a call either returns a value or raises,
      see [outcome].  [print] only writes to the terminal and is left out.
    - The numeric type of the similarity scores (binary64 in the source) is
      an interface, [Float64]; only the laws listed in [Float64Laws] are
      used, and only where a theorem says so. *)

From Stdlib Require Import List String Ascii ZArith Lia Bool Arith.
From Stdlib Require QArith.
From Stdlib Require Import Permutation Sorted RelationClasses.
Import ListNotations.
Open Scope string_scope.
Open Scope list_scope.

(** ** Outcomes of a Python call *)

Inductive exn : Type :=
| KeyError (key : string)
| IndexError
| ValueError (msg : string)
| OSError (msg : string)
| AttributeError (msg : string).

Inductive outcome (A : Type) : Type :=
| Returned (a : A)
| Raised (e : exn).

Arguments Returned {A} a.
Arguments Raised {A} e.

Definition bind {A B : Type} (m : outcome A) (k : A -> outcome B) : outcome B :=
  match m with
  | Returned a => k a
  | Raised e => Raised e
  end.

Notation "x <- m ;; k" := (bind m (fun x => k))
  (at level 61, m at next level, right associativity).

(** The body of a [for] loop that appends to [results]: the rows of each
    iteration in order, the first exception ending the loop. *)
Fixpoint for_each {A B : Type} (body : A -> outcome (list B)) (l : list A)
  : outcome (list B) :=
  match l with
  | [] => Returned []
  | a :: l' =>
      rs <- body a ;;
      rest <- for_each body l' ;;
      Returned (rs ++ rest)
  end.

(** ** Tables *)

Module Frame.

(** A number as a cell holds it (int64 or float64), by its exact value. *)
Definition number : Type := QArith_base.Q.

Definition integer (z : Z) : number := QArith_base.Qmake z 1.

(** A cell: a missing value, a number together with the text [str] gives
    for it ("7" in an int64 column, "7.0" in a float64 one), or a text. *)
Inductive Cell : Type :=
| NaN
| Num (x : number) (shown : string)
| Str (s : string).

Definition is_num (c : Cell) : bool :=
  match c with
  | Num _ _ => true
  | _ => false
  end.

Definition is_str (c : Cell) : bool :=
  match c with
  | Str _ => true
  | _ => false
  end.

(** Elementwise [==] on values: numbers by value, texts character by
    character, a number never equal to a text; [NaN] is equal to nothing,
    not even to itself. *)
Definition cell_eq (a b : Cell) : bool :=
  match a, b with
  | Str s, Str t => String.eqb s t
  | Num x _, Num y _ => QArith_base.Qeq_bool x y
  | _, _ => false
  end.

(** The dtype of a column: [object], or a numeric one (int64, float64). *)
Inductive Dtype : Type :=
| Object
| Numeric.

(** The dtype [read_csv] gives a column of parsed cells: numeric when every
    field is a number or missing, [object] when some field is a text, and
    [object] for a table without rows. *)
Definition infer_dtype (col : list Cell) : Dtype :=
  if (List.length col =? 0)%nat || existsb is_str col then Object else Numeric.

(** A row taken out of a table ([iloc], [iterrows]): labels with values. *)
Definition Series : Type := list (string * Cell).

(** A table: the column labels in order, and the rows in order; a row
    gives the cell under each label (only labels in [columns] are ever
    read: every access below goes through the schema). *)
Definition Row : Type := string -> Cell.

Record DataFrame : Type := mkTable {
  columns : list string;
  rows : list Row;
  dtype : string -> Dtype
}.

(** The table with these labels and rows, as [read_csv] types it. *)
Definition mkFrame (cols : list string) (rs : list Row) : DataFrame :=
  mkTable cols rs (fun c => infer_dtype (map (fun r : Row => r c) rs)).

(** [pd.DataFrame()] *)
Definition empty_frame : DataFrame := mkFrame [] [].

(** [c in df.columns] *)
Definition has_column (df : DataFrame) (c : string) : bool :=
  existsb (String.eqb c) (columns df).

(** [df[c]] *)
Definition getitem (df : DataFrame) (c : string) : outcome (list Cell) :=
  if has_column df c then Returned (map (fun r : Row => r c) (rows df))
  else Raised (KeyError c).

Fixpoint select {A : Type} (mask : list bool) (l : list A) : list A :=
  match mask, l with
  | b :: mask', a :: l' => if b then a :: select mask' l' else select mask' l'
  | _, _ => []
  end.

(** [df[mask]] for a boolean mask computed from a column of [df]; the
    columns keep their dtypes. *)
Definition getmask (df : DataFrame) (mask : list bool) : DataFrame :=
  mkTable (columns df) (select mask (rows df)) (dtype df).

Definition series_of (cols : list string) (r : Row) : Series :=
  map (fun c => (c, r c)) cols.

(** [df.iloc[i]] *)
Definition iloc (df : DataFrame) (i : nat) : outcome Series :=
  match nth_error (rows df) i with
  | Some r => Returned (series_of (columns df) r)
  | None => Raised IndexError
  end.

(** [df.iterrows()], without the index labels the loop ignores. *)
Definition iterrows (df : DataFrame) : list Series :=
  map (series_of (columns df)) (rows df).

(** [df.empty]: some axis has length zero. *)
Definition empty (df : DataFrame) : bool :=
  (List.length (columns df) =? 0)%nat || (List.length (rows df) =? 0)%nat.

Fixpoint lookup (key : string) (s : Series) : option Cell :=
  match s with
  | [] => None
  | (k, v) :: s' => if String.eqb key k then Some v else lookup key s'
  end.

(** [s.get(key, default)] *)
Definition get (s : Series) (key : string) (default : Cell) : Cell :=
  match lookup key s with
  | Some v => v
  | None => default
  end.

(** The row whose cells are listed in [s]; a label not listed is missing. *)
Definition row_of (s : Series) : Row := fun c => get s c NaN.

Fixpoint zip_with {A B C : Type} (f : A -> B -> C) (l : list A) (l' : list B)
  : list C :=
  match l, l' with
  | a :: t, b :: t' => f a b :: zip_with f t t'
  | _, _ => []
  end.

Definition set_cell (c : string) (v : Cell) (r : Row) : Row :=
  fun k => if String.eqb k c then v else r k.

(** [df[c] = values], for [values] computed from the columns of [df]:
    an existing column is overwritten, a new one is added at the end. *)
Definition setitem (df : DataFrame) (c : string) (values : list Cell)
  : DataFrame :=
  mkTable (if has_column df c then columns df else columns df ++ [c])
          (zip_with (fun r v => set_cell c v r) (rows df) values)
          (fun k => if String.eqb k c then infer_dtype values else dtype df k).

(** [col.fillna('').astype(str)], elementwise. *)
Definition fillna_str (c : Cell) : string :=
  match c with
  | NaN => ""
  | Num _ shown => shown
  | Str s => s
  end.

(** [col.str]: the accessor is refused on a column that is not of dtype
    [object], and on an [object] column whose values, the missing ones
    apart, are all numbers. *)
Definition can_use_str (dt : Dtype) (col : list Cell) : bool :=
  match dt with
  | Numeric => false
  | Object => negb (existsb is_num col) || existsb is_str col
  end.

End Frame.
Import Frame.

(** ** Text helpers *)

Definition is_upper (c : ascii) : bool :=
  let n := nat_of_ascii c in (65 <=? n)%nat && (n <=? 90)%nat.

Definition lower_char (c : ascii) : ascii :=
  if is_upper c then ascii_of_nat (nat_of_ascii c + 32) else c.

(** [str.lower] on the ASCII range; other bytes are left as they are (no
    character outside ASCII lowers to a letter of "coordinator"). *)
Fixpoint lower (s : string) : string :=
  match s with
  | EmptyString => EmptyString
  | String c s' => String (lower_char c) (lower s')
  end.

(** [.str.lower()] on one value: what is not a text becomes [NaN]. *)
Definition lower_cell (c : Cell) : Cell :=
  match c with
  | Str s => Str (lower s)
  | _ => NaN
  end.

(** [col.str.lower()] for a column of the given dtype. *)
Definition lower_column (dt : Dtype) (col : list Cell) : outcome (list Cell) :=
  if can_use_str dt col then Returned (map lower_cell col)
  else Raised (AttributeError "Can only use .str accessor with string values!").

(** [col.str.lower() == 'coordinator'] on one value. *)
Definition is_coordinator (role : Cell) : bool :=
  cell_eq (lower_cell role) (Str "coordinator").

(** ** Coordinator look-up (lines 128-132) *)

Definition project_coordinators (orgs_df : DataFrame) (project_id : Cell)
  : outcome DataFrame :=
  linkage <- getitem orgs_df "projectID" ;;
  let project_orgs := getmask orgs_df (map (fun c => cell_eq c project_id) linkage) in
  if has_column project_orgs "role" then
    role <- getitem project_orgs "role" ;;
    lowered <- lower_column (dtype project_orgs "role") role ;;
    Returned (getmask project_orgs
                (map (fun c => cell_eq c (Str "coordinator")) lowered))
  else
    Returned empty_frame.

(** ** Numbers

    The similarity scores are binary64 numbers.  The model is written over
    the operations the libraries apply to them. *)

Class Float64 (F : Type) : Type := {
  fzero : F;
  fone : F;
  fadd : F -> F -> F;
  fmul : F -> F -> F;
  fdiv : F -> F -> F;
  fsqrt : F -> F;
  fln : F -> F;
  of_nat : nat -> F;
  feqb : F -> F -> bool;
  fleb : F -> F -> bool;
  (** [round(x, 4)] *)
  round4 : F -> F
}.

(** What the ordering theorems use: [<=] is a total preorder on the scores
    (they are finite: [cosine_similarity] rejects NaN and infinities), and
    rounding to four decimals is monotone and keeps [0.0]. *)
Class Float64Laws (F : Type) `{Float64 F} : Prop := {
  fleb_total : forall x y : F, fleb x y = true \/ fleb y x = true;
  fleb_trans : forall x y z : F,
    fleb x y = true -> fleb y z = true -> fleb x z = true;
  round4_mono : forall x y : F,
    fleb x y = true -> fleb (round4 x) (round4 y) = true;
  round4_zero : round4 fzero = fzero
}.

(** Decimal fixed point with twelve fractional digits, to run the model on
    examples: a score [x] is held as the integer nearest to [x * 10^12].
    It is not binary64; on the example tables its scores agree with the
    binary64 ones well within the four decimals the result rows keep. *)
Module Fixed.

Definition unit : Z := 1000000000000.

Definition mul (x y : Z) : Z := ((x * y + unit / 2) / unit)%Z.

Definition div (x y : Z) : Z :=
  if (y =? 0)%Z then 0%Z else ((x * unit + y / 2) / y)%Z.

Definition sqrt (x : Z) : Z := Z.sqrt (x * unit).

(** [power/d + power*square/(d+2) + ...], [n] terms. *)
Fixpoint odd_series (n : nat) (d power square : Z) : Z :=
  match n with
  | O => 0%Z
  | S n' => (power / d + odd_series n' (d + 2) (mul power square) square)%Z
  end.

(** [ln x = 2 atanh ((x - 1) / (x + 1))], by its series. *)
Definition ln (x : Z) : Z :=
  let z := div (x - unit) (x + unit) in
  (2 * odd_series 80 1 z (mul z z))%Z.

Definition step : Z := 100000000.

(** To the nearest multiple of [10^-4], ties to the even one. *)
Definition round4 (x : Z) : Z :=
  let q := (x / step)%Z in
  let r := (x mod step)%Z in
  if (2 * r <? step)%Z then (q * step)%Z
  else if (step <? 2 * r)%Z then ((q + 1) * step)%Z
  else if Z.even q then (q * step)%Z
  else ((q + 1) * step)%Z.

End Fixed.

#[export] Instance Z_scores : Float64 Z := {|
  fzero := 0%Z;
  fone := Fixed.unit;
  fadd := Z.add;
  fmul := Fixed.mul;
  fdiv := Fixed.div;
  fsqrt := Fixed.sqrt;
  fln := Fixed.ln;
  of_nat := fun n => (Z.of_nat n * Fixed.unit)%Z;
  feqb := Z.eqb;
  fleb := Z.leb;
  round4 := Fixed.round4
|}.

(** ** Text analysis ([TfidfVectorizer(stop_words='english')])

    The default analyzer lower-cases the document, takes the matches of
    [(?u)\b\w\w+\b] (maximal runs of two or more word characters) and
    drops the stop words.  The stop-word list is a constant of scikit-learn
    and a parameter here.  What Python's Unicode tables decide (the lower
    case of a text, its word characters, its white space) is an interface,
    [Unicode]; [ascii_text] is that interface for texts of ASCII
    characters. *)

Class Unicode : Type := {
  (** [s.lower()] *)
  str_lower : string -> string;
  (** [s.strip()] *)
  str_strip : string -> string;
  (** [re.findall(r"(?u)\b\w\w+\b", s)] *)
  word_tokens : string -> list string
}.

Definition is_word_char (c : ascii) : bool :=
  let n := nat_of_ascii c in
  ((48 <=? n)%nat && (n <=? 57)%nat)
  || ((65 <=? n)%nat && (n <=? 90)%nat)
  || (n =? 95)%nat
  || ((97 <=? n)%nat && (n <=? 122)%nat).

Definition flush (run : string) : list string :=
  if (2 <=? String.length run)%nat then [run] else [].

Fixpoint word_runs (run : string) (s : string) : list string :=
  match s with
  | EmptyString => flush run
  | String c s' =>
      if is_word_char c then word_runs (run ++ String c EmptyString)%string s'
      else flush run ++ word_runs EmptyString s'
  end.

Definition mem (t : string) (l : list string) : bool :=
  existsb (String.eqb t) l.

Definition is_space (c : ascii) : bool :=
  let n := nat_of_ascii c in
  ((9 <=? n)%nat && (n <=? 13)%nat) || ((28 <=? n)%nat && (n <=? 32)%nat).

Fixpoint lstrip (s : string) : string :=
  match s with
  | EmptyString => EmptyString
  | String c s' => if is_space c then lstrip s' else s
  end.

Definition reverse (s : string) : string :=
  string_of_list_ascii (rev (list_ascii_of_string s)).

Definition strip (s : string) : string :=
  reverse (lstrip (reverse (lstrip s))).

(** The interface on texts of ASCII characters. *)
Definition ascii_text : Unicode := {|
  str_lower := lower;
  str_strip := strip;
  word_tokens := word_runs EmptyString
|}.

Definition analyze {U : Unicode} (stop_words : list string) (doc : string)
  : list string :=
  filter (fun t => negb (mem t stop_words)) (word_tokens (str_lower doc)).

Fixpoint insert_sorted (t : string) (l : list string) : list string :=
  match l with
  | [] => [t]
  | u :: l' => if String.leb t u then t :: l else u :: insert_sorted t l'
  end.

(** [sorted(vocabulary)] *)
Definition sort_terms (l : list string) : list string :=
  fold_right insert_sorted [] l.

(** The terms of the fitted vocabulary, in feature order. *)
Definition vocabulary {U : Unicode} (stop_words : list string)
    (corpus : list string) : list string :=
  sort_terms (nodup string_dec (flat_map (analyze stop_words) corpus)).

(** ** TF-IDF weighting and cosine similarity

    Sparse rows as scikit-learn stores them: only the terms with a non-zero
    count have an entry. *)

Section Similarity.

Context {F : Type} `{Float64 F} {U : Unicode}.
Variable stop_words : list string.

Definition SparseRow : Type := list (string * F).

(** [CountVectorizer]: the count of each vocabulary term in the tokens. *)
Definition count_terms (vocab tokens : list string) : SparseRow :=
  flat_map (fun t =>
              let c := count_occ string_dec tokens t in
              if (c =? 0)%nat then [] else [(t, of_nat c)])
           vocab.

Definition document_frequency (docs : list (list string)) (t : string) : nat :=
  List.length (filter (mem t) docs).

(** [idf = log((1 + n) / (1 + df)) + 1] (smooth_idf) *)
Definition idf (docs : list (list string)) (t : string) : F :=
  fadd (fln (fdiv (of_nat (List.length docs + 1))
                  (of_nat (document_frequency docs t + 1))))
       fone.

Record Vectorizer : Type := mkVectorizer {
  vocabulary_ : list string;
  idf_ : string -> F
}.

Definition weigh (v : Vectorizer) (row : SparseRow) : SparseRow :=
  map (fun e => (fst e, fmul (snd e) (idf_ v (fst e)))) row.

Definition sum_squares (row : SparseRow) : F :=
  fold_left (fun acc e => fadd acc (fmul (snd e) (snd e))) row fzero.

(** [normalize(X, norm='l2')] on a sparse row: a row of norm zero is left
    as it is. *)
Definition normalize (row : SparseRow) : SparseRow :=
  let s := sum_squares row in
  if feqb s fzero then row
  else map (fun e => (fst e, fdiv (snd e) (fsqrt s))) row.

Fixpoint weight_of (t : string) (row : SparseRow) : option F :=
  match row with
  | [] => None
  | (u, w) :: row' => if String.eqb t u then Some w else weight_of t row'
  end.

Definition dot (q d : SparseRow) : F :=
  fold_left (fun acc e =>
               match weight_of (fst e) d with
               | Some w => fadd acc (fmul (snd e) w)
               | None => acc
               end)
            q fzero.

(** [vectorizer.transform([doc])] *)
Definition transform (v : Vectorizer) (doc : string) : SparseRow :=
  normalize (weigh v (count_terms (vocabulary_ v) (analyze stop_words doc))).

(** [vectorizer.fit_transform(corpus)] *)
Definition fit_transform (corpus : list string)
  : outcome (Vectorizer * list SparseRow) :=
  let docs := map (analyze stop_words) corpus in
  match vocabulary stop_words corpus with
  | [] => Raised (ValueError
            "empty vocabulary; perhaps the documents only contain stop words")
  | vocab =>
      let v := mkVectorizer vocab (idf docs) in
      Returned (v, map (transform v) corpus)
  end.

(** [cosine_similarity(query_vec, tfidf_matrix).flatten()] *)
Definition cosine_similarity (q : SparseRow) (m : list SparseRow) : list F :=
  map (fun d => dot (normalize q) (normalize d)) m.

End Similarity.

(** ** Ranking (line 103) *)

(** [l[start:]] for a Python integer [start]. *)
Definition slice_from {A : Type} (start : Z) (l : list A) : list A :=
  let len := Z.of_nat (List.length l) in
  let first := if (start <? 0)%Z then Z.max 0 (start + len) else Z.min start len in
  skipn (Z.to_nat first) l.

Section Ranking.

Context {F : Type} `{Float64 F} {U : Unicode}.

(** [similarities.argsort()], numpy's ascending index sort, is a parameter:
    the default sort kind promises no order among equal values. *)
Variable argsort : list F -> list nat.

(** [similarities.argsort()[-n_top:][::-1]] *)
Definition top_indices (similarities : list F) (n_top : Z) : list nat :=
  rev (slice_from (- n_top) (argsort similarities)).

Definition score_at (similarities : list F) (i : nat) : F :=
  nth i similarities fzero.

(** What numpy documents of [argsort]: the indices of the array, each
    once, in an order that sorts the values ascending. *)
Definition argsort_contract : Prop :=
  forall similarities,
    Permutation (argsort similarities) (seq 0 (List.length similarities))
    /\ Sorted (fun i j => fleb (score_at similarities i)
                               (score_at similarities j) = true)
              (argsort similarities).

End Ranking.

(** One index sort that meets the contract, to run the model on examples:
    an insertion sort, where entry [i] goes in front of the first entry that
    is strictly greater.  Among equal values it keeps index order; numpy's
    sort need not. *)
Section InsertionArgsort.

Context {F : Type} `{Float64 F} {U : Unicode}.

Definition flt (similarities : list F) (i j : nat) : bool :=
  negb (fleb (score_at similarities j) (score_at similarities i)).

Fixpoint insert_index (similarities : list F) (i : nat) (sorted : list nat)
  : list nat :=
  match sorted with
  | [] => [i]
  | j :: rest =>
      if flt similarities i j then i :: sorted
      else j :: insert_index similarities i rest
  end.

Definition insertion_argsort (similarities : list F) : list nat :=
  fold_left (fun sorted i => insert_index similarities i sorted)
            (seq 0 (List.length similarities)) [].

End InsertionArgsort.

(** ** Input files (lines 12-56 and 69-70)

    Reading the files is outside the model; what the reads give is its
    input: the result of [load_data], and the result of reading the two
    comma-separated files of the fallback. *)

Record Files : Type := mkFiles {
  load_data : outcome (option (DataFrame * DataFrame));
  read_he_projects : outcome DataFrame;
  read_he_organizations : outcome DataFrame
}.

(** Lines 59-70: the tables the rest of [find_coordinators] works on, or
    [None] when the function returns at line 61. *)
Definition load_tables (files : Files) : outcome (option (DataFrame * DataFrame)) :=
  loaded <- load_data files ;;
  match loaded with
  | None => Returned None
  | Some (projects_df, orgs_df) =>
      if negb (has_column projects_df "title")
         && (List.length (columns projects_df) =? 1)%nat
      then
        projects_df' <- read_he_projects files ;;
        orgs_df' <- read_he_organizations files ;;
        Returned (Some (projects_df', orgs_df'))
      else Returned (Some (projects_df, orgs_df))
  end.

(** ** Corpus preparation (lines 74-89) *)

Definition text_columns : list string := ["title"; "objective"; "topics"].

(** [text_data]: one column of strings per text column present. *)
Fixpoint collect_text (projects_df : DataFrame) (cols : list string)
  : outcome (list (list string)) :=
  match cols with
  | [] => Returned []
  | c :: cols' =>
      if has_column projects_df c then
        col <- getitem projects_df c ;;
        rest <- collect_text projects_df cols' ;;
        Returned (map fillna_str col :: rest)
      else collect_text projects_df cols'
  end.

(** [combined += ' ' + col_data], elementwise *)
Definition add_column (combined col_data : list string) : list string :=
  zip_with (fun a b => (a ++ " " ++ b)%string) combined col_data.

(** Lines 87-89; [None] when [text_data] is empty (lines 83-85). *)
Definition combined_text (text_data : list (list string)) : option (list string) :=
  match text_data with
  | [] => None
  | first :: others => Some (fold_left add_column others first)
  end.

(** Lines 74-89: the projects table with its [combined_text] column. *)
Definition prepare_corpus (projects_df : DataFrame) : outcome (option DataFrame) :=
  text_data <- collect_text projects_df text_columns ;;
  match combined_text text_data with
  | None => Returned None
  | Some combined =>
      Returned (Some (setitem projects_df "combined_text" (map Str combined)))
  end.

(** ** Result rows (lines 111-164) *)

Section Assembly.

Context {F : Type} `{Float64 F} {U : Unicode}.

Record ResultRow : Type := mkRow {
  similarity_score : F;
  project_id : Cell;
  project_acronym : Cell;
  project_title : Cell;
  start_date : Cell;
  end_date : Cell;
  coordinator_name : Cell;
  coordinator_country : Cell;
  coordinator_city : Cell
}.

Definition unknown : Cell := Str "Unknown".

(** [project.get('projectID', project.get('id', 'Unknown'))] *)
Definition project_id_of (project : Series) : Cell :=
  get project "projectID" (get project "id" unknown).

(** The row appended at lines 141-151. *)
Definition coordinator_row (sim_score : F) (project : Series) (org : Series)
  : ResultRow :=
  mkRow (round4 sim_score)
        (project_id_of project)
        (get project "acronym" unknown)
        (get project "title" unknown)
        (get project "startDate" unknown)
        (get project "endDate" unknown)
        (get org "name" unknown)
        (get org "country" unknown)
        (get org "city" unknown).

(** The row appended at lines 154-164. *)
Definition none_found_row (sim_score : F) (project : Series) : ResultRow :=
  mkRow (round4 sim_score)
        (project_id_of project)
        (get project "acronym" unknown)
        (get project "title" unknown)
        (get project "startDate" unknown)
        (get project "endDate" unknown)
        (Str "None found")
        (Str "")
        (Str "").

(** Lines 134-164, for the table [coordinators] of one project. *)
Definition rows_for (sim_score : F) (project : Series) (coordinators : DataFrame)
  : list ResultRow :=
  if negb (empty coordinators) then
    map (coordinator_row sim_score project) (iterrows coordinators)
  else [none_found_row sim_score project].

(** [similarities[idx]] *)
Definition item (similarities : list F) (idx : nat) : outcome F :=
  match nth_error similarities idx with
  | Some x => Returned x
  | None => Raised IndexError
  end.

(** One iteration of the loop at line 111. *)
Definition report_project (projects_df orgs_df : DataFrame)
    (similarities : list F) (idx : nat) : outcome (list ResultRow) :=
  project <- iloc projects_df idx ;;
  sim_score <- item similarities idx ;;
  coordinators <- project_coordinators orgs_df (project_id_of project) ;;
  Returned (rows_for sim_score project coordinators).

(** ** The pipeline *)

Variable stop_words : list string.
Variable argsort : list F -> list nat.

(** Lines 91-100: the similarity of every project to the query; [None]
    when no text column is present (the function prints an error and
    returns, lines 83-85). *)
Definition score_projects (projects_df : DataFrame) (query : string)
  : outcome (option (DataFrame * list F)) :=
  prepared <- prepare_corpus projects_df ;;
  match prepared with
  | None => Returned None
  | Some projects_df =>
      corpus <- getitem projects_df "combined_text" ;;
      fitted <- fit_transform stop_words (map fillna_str corpus) ;;
      let query_vec := transform stop_words (fst fitted) query in
      Returned (Some (projects_df, cosine_similarity query_vec (snd fitted)))
  end.

(** Lines 72-166, on the loaded tables. *)
Definition find_in_tables (projects_df orgs_df : DataFrame)
    (query : string) (n_top : Z) : outcome (option (list ResultRow)) :=
  scored <- score_projects projects_df query ;;
  match scored with
  | None => Returned None
  | Some (projects_df, similarities) =>
      results <- for_each (report_project projects_df orgs_df similarities)
                          (top_indices argsort similarities n_top) ;;
      Returned (Some results)
  end.

Definition find_coordinators (files : Files) (query : string) (n_top : Z)
  : outcome (option (list ResultRow)) :=
  tables <- load_tables files ;;
  match tables with
  | None => Returned None
  | Some (projects_df, orgs_df) =>
      find_in_tables projects_df orgs_df query n_top
  end.

End Assembly.

(** * Statements

    The vocabulary of the properties: what a look-up keeps and what a
    combined text is, stated row by row, and the tables the examples use. *)

(** The rows of [orgs_df] a look-up for [X] keeps. *)
Definition coordinator_of (X : Cell) (r : Row) : bool :=
  cell_eq (r "projectID") X && is_coordinator (r "role").

(** The text columns the table has, in the fixed order. *)
Definition present_text_columns (projects_df : DataFrame) : list string :=
  filter (has_column projects_df) text_columns.

(** The present text cells of a row, missing cells as empty strings, joined
    by single spaces. *)
Definition joined_text (projects_df : DataFrame) (r : Row) : string :=
  String.concat " "
    (map (fun c => fillna_str (r c)) (present_text_columns projects_df)).

(** A text column as the preparation reads it. *)
Definition text_column (projects_df : DataFrame) (c : string) : list string :=
  map (fun r : Row => fillna_str (r c)) (rows projects_df).

(** The documents handed to the vectorizer. *)
Definition corpus_of (projects_df : DataFrame) : list string :=
  map (joined_text projects_df) (rows projects_df).

(** The projects table after line 89. *)
Definition prepared (projects_df : DataFrame) : DataFrame :=
  setitem projects_df "combined_text" (map Str (corpus_of projects_df)).

(** The [role] values of the rows selected for [X]. *)
Definition selected_roles (orgs_df : DataFrame) (X : Cell) : list Cell :=
  map (fun r : Row => r "role")
      (filter (fun r : Row => cell_eq (r "projectID") X) (rows orgs_df)).

(** The table a look-up for [X] returns when it returns. *)
Definition coordinators_of (orgs_df : DataFrame) (X : Cell) : DataFrame :=
  if has_column orgs_df "role"
  then mkTable (columns orgs_df) (filter (coordinator_of X) (rows orgs_df))
               (dtype orgs_df)
  else empty_frame.

(** The column holds text: its dtype is [object] and no cell is a number. *)
Definition holds_text (df : DataFrame) (c : string) : bool :=
  match dtype df c with
  | Object => forallb (fun r : Row => negb (is_num (r c))) (rows df)
  | Numeric => false
  end.

(** The look-up can run on the table: it has the [projectID] column, and
    its [role] column, if it has one, holds text. *)
Definition lookup_runs (orgs_df : DataFrame) : bool :=
  has_column orgs_df "projectID"
  && (negb (has_column orgs_df "role") || holds_text orgs_df "role").

(** Row [idx] of the table, as [iloc] gives it. *)
Definition project_at (projects_df : DataFrame) (idx : nat) : Series :=
  series_of (columns projects_df) (nth idx (rows projects_df) (fun _ => NaN)).

Section StatementTerms.

Context {F : Type} `{Float64 F} {U : Unicode}.
Variable stop_words : list string.

(** The vectorizer fitted on a corpus. *)
Definition fitted_on (corpus : list string) : Vectorizer :=
  mkVectorizer (vocabulary stop_words corpus)
               (idf (map (analyze stop_words) corpus)).

(** The similarity of every project of the table to the query. *)
Definition similarities_of (projects_df : DataFrame) (query : string) : list F :=
  let corpus := corpus_of projects_df in
  let v := fitted_on corpus in
  cosine_similarity (transform stop_words v query)
                    (map (transform stop_words v) corpus).

(** The rows one ranked project contributes to the output. *)
Definition block (projects_df orgs_df : DataFrame) (similarities : list F)
    (idx : nat) : list ResultRow :=
  let project := project_at projects_df idx in
  rows_for (score_at similarities idx) project
           (coordinators_of orgs_df (project_id_of project)).

(** Ascending by score, equal scores by index. *)
Definition lex (similarities : list F) (i j : nat) : Prop :=
  fleb (score_at similarities i) (score_at similarities j) = true
  /\ (fleb (score_at similarities j) (score_at similarities i) = true -> i < j).

End StatementTerms.

Module Examples.

Definition projects : DataFrame :=
  mkFrame ["id"; "title"; "topics"]
    [ row_of [("id", Str "P1"); ("title", Str "AI for climate modeling")];
      row_of [("id", Str "P2"); ("title", Str "Battery recycling chemistry");
              ("topics", Str "HORIZON-CL5")];
      row_of [("id", Str "P3"); ("title", Str "Quantum sensor networks")] ].

Definition organizations : DataFrame :=
  mkFrame ["projectID"; "name"; "role"]
    [ row_of [("projectID", Str "P1"); ("name", Str "OrgA");
              ("role", Str "Coordinator")];
      row_of [("projectID", Str "P3"); ("name", Str "OrgB");
              ("role", Str "coordinator")];
      row_of [("projectID", Str "P3"); ("name", Str "OrgC");
              ("role", Str "partner")];
      row_of [("projectID", Str "p3"); ("name", Str "OrgD");
              ("role", Str "coordinator")] ].

(** An organizations table with neither a linkage nor a role column. *)
Definition names_only : DataFrame :=
  mkFrame ["name"] [ row_of [("name", Str "OrgA")] ].

(** A projects table without any of the text columns. *)
Definition no_text : DataFrame :=
  mkFrame ["id"; "acronym"]
    [ row_of [("id", Str "P1"); ("acronym", Str "CLIMA")] ].

(** A projects table whose only document has no token of two characters. *)
Definition no_vocabulary : DataFrame :=
  mkFrame ["id"; "title"] [ row_of [("id", Str "P1"); ("title", Str "a b c")] ].

Definition absent : outcome DataFrame := Raised (OSError "No such file").

Definition files (projects_df orgs_df : DataFrame) : Files :=
  mkFiles (Returned (Some (projects_df, orgs_df))) absent absent.

(** The stop words that matter for the example texts. *)
Definition stop_words : list string := ["for"; "the"; "and"; "of"].

(** Three projects with numeric identifiers that score differently for the
    query "climate AI modeling": the first matches it word for word, the
    second shares one word with it, the third none. *)
Definition ranked_projects : DataFrame :=
  mkFrame ["id"; "title"]
    [ row_of [("id", Num (integer 101) "101");
              ("title", Str "AI for climate modeling")];
      row_of [("id", Num (integer 102) "102");
              ("title", Str "Climate policy and economics")];
      row_of [("id", Num (integer 103) "103");
              ("title", Str "Quantum sensor networks")] ].

(** Their organizations; the [projectID] column is a float64 column, one
    field being empty. *)
Definition ranked_organizations : DataFrame :=
  mkFrame ["projectID"; "name"; "role"]
    [ row_of [("projectID", Num (integer 101) "101.0"); ("name", Str "OrgA");
              ("role", Str "Coordinator")];
      row_of [("projectID", Num (integer 103) "103.0"); ("name", Str "OrgB");
              ("role", Str "COORDINATOR")];
      row_of [("projectID", Num (integer 103) "103.0"); ("name", Str "OrgC");
              ("role", Str "partner")];
      row_of [("name", Str "OrgD"); ("role", Str "coordinator")] ].

(** An organizations table whose [role] fields are all empty: [read_csv]
    makes it a float64 column. *)
Definition empty_roles : DataFrame :=
  mkFrame ["projectID"; "name"; "role"]
    [ row_of [("projectID", Str "P1"); ("name", Str "OrgA")] ].

(** A run on example tables, with the fixed-point scores, an insertion
    sort as the index sort and the ASCII texts. *)
Definition run (projects_df orgs_df : DataFrame) (query : string) (n_top : Z)
  : outcome (option (list (ResultRow (F := Z)))) :=
  find_coordinators (U := ascii_text) stop_words insertion_argsort
                    (files projects_df orgs_df) query n_top.

Definition rows_of (o : outcome (option (list (ResultRow (F := Z)))))
  : list (ResultRow (F := Z)) :=
  match o with
  | Returned (Some results) => results
  | _ => []
  end.

Definition climate_rows : list (ResultRow (F := Z)) :=
  Eval vm_compute in
    rows_of (run ranked_projects ranked_organizations "climate AI modeling" 3).

Definition all_rows : list (ResultRow (F := Z)) :=
  Eval vm_compute in
    rows_of (run ranked_projects ranked_organizations "climate AI modeling" 0).

End Examples.

(** * Downloading, loading and the command line

    [download_and_extract] (lines 12-41), [load_data] (lines 43-56) and the
    script body (lines 168-193).  The file system is ideal: creating a
    directory or writing a file succeeds.  The network, the archive reader
    and the CSV parser are parameters. *)

Module IO.

(** The directories and files that exist, and the URLs requested so far
    (latest first). *)
Record World : Type := mkWorld {
  dirs : list string;
  files : list (string * string);
  requested : list string
}.

(** A command: it may change the world, and returns or raises. *)
Definition io (A : Type) : Type := World -> World * outcome A.

Definition ret {A : Type} (a : A) : io A := fun w => (w, Returned a).

Definition bind_io {A B : Type} (m : io A) (k : A -> io B) : io B :=
  fun w =>
    match m w with
    | (w', Returned a) => k a w'
    | (w', Raised e) => (w', Raised e)
    end.

Notation "x <~ m ;; k" := (bind_io m (fun x => k))
  (at level 61, m at next level, right associativity).

Fixpoint content (path : string) (fs : list (string * string)) : option string :=
  match fs with
  | [] => None
  | (p, data) :: fs' => if String.eqb path p then Some data else content path fs'
  end.

Definition is_file (w : World) (path : string) : bool :=
  match content path (files w) with
  | Some _ => true
  | None => false
  end.

(** [os.path.exists(path)] *)
Definition path_exists (w : World) (path : string) : bool :=
  mem path (dirs w) || is_file w path.

(** [os.makedirs(path)] *)
Definition makedirs (path : string) : io unit :=
  fun w => (mkWorld (path :: dirs w) (files w) (requested w), Returned tt).

(** The file at [path] holds [data] afterwards ([open(path, 'wb')] and the
    writes up to the close). *)
Definition write_file (path data : string) (w : World) : World :=
  mkWorld (dirs w)
          ((path, data)
             :: filter (fun e => negb (String.eqb (fst e) path)) (files w))
          (requested w).

Definition starts_with_slash (s : string) : bool :=
  match s with
  | String c _ => Ascii.eqb c "/"
  | EmptyString => false
  end.

Fixpoint ends_with_slash (s : string) : bool :=
  match s with
  | EmptyString => false
  | String c EmptyString => Ascii.eqb c "/"
  | String _ s' => ends_with_slash s'
  end.

(** [os.path.join(a, b)] *)
Definition join (a b : string) : string :=
  if starts_with_slash b then b
  else if String.eqb a "" || ends_with_slash a then (a ++ b)%string
  else (a ++ "/" ++ b)%string.

(** What [requests.get(url, stream=True)] gives when it returns: the status,
    the chunks [iter_content] yields, and the exception that ends the stream
    early, if any. *)
Record Response : Type := mkResponse {
  status_code : nat;
  body : list string;
  broken : option exn
}.

Definition Network : Type := string -> outcome Response.

(** [response.raise_for_status()]; [HTTPError] is an [OSError]. *)
Definition raise_for_status (response : Response) : outcome unit :=
  if (400 <=? status_code response)%nat && (status_code response <? 600)%nat
  then Raised (OSError "HTTPError")
  else Returned tt.

(** What [zipfile.ZipFile(path)] finds when the file is an archive: the
    members [extractall] writes, and the exception that ends the extraction
    early, if any. *)
Record Archive : Type := mkArchive {
  members : list (string * string);
  damaged : option exn
}.

Definition Unzip : Type := string -> outcome Archive.

(** [pd.read_csv] on the text of a file, for a separator. *)
Definition Parser : Type := string -> string -> outcome DataFrame.

Definition ZIP_URL : string :=
  "https://cordis.europa.eu/data/cordis-HORIZONprojects-csv.zip".

(** Lines 26-36: the request, the status check and the chunks written to
    [zip_path]; an exception is printed and raised again. *)
Definition download (net : Network) (url zip_path : string) : io unit :=
  fun w =>
    let w := mkWorld (dirs w) (files w) (url :: requested w) in
    match net url with
    | Raised e => (w, Raised e)
    | Returned response =>
        match raise_for_status response with
        | Raised e => (w, Raised e)
        | Returned _ =>
            let w := write_file zip_path (String.concat "" (body response)) w in
            match broken response with
            | Some e => (w, Raised e)
            | None => (w, Returned tt)
            end
        end
    end.

(** The members of an archive written under [data_dir], in order. *)
Definition write_members (data_dir : string) (ms : list (string * string))
    (w : World) : World :=
  fold_left (fun w m => write_file (join data_dir (fst m)) (snd m) w) ms w.

(** Lines 39-40 *)
Definition extractall (unzip : Unzip) (zip_path data_dir : string) : io unit :=
  fun w =>
    match content zip_path (files w) with
    | None => (w, Raised (OSError "No such file or directory"))
    | Some data =>
        match unzip data with
        | Raised e => (w, Raised e)
        | Returned archive =>
            let w := write_members data_dir (members archive) w in
            match damaged archive with
            | Some e => (w, Raised e)
            | None => (w, Returned tt)
            end
        end
    end.

(** Lines 13-14: the directory is created unless the path exists. *)
Definition with_directory (data_dir : string) (w : World) : World :=
  if path_exists w data_dir then w else fst (makedirs data_dir w).

(** Lines 12-41 *)
Definition download_and_extract (net : Network) (unzip : Unzip)
    (url data_dir : string) : io unit :=
  fun w =>
    let w := with_directory data_dir w in
    let project_csv := join data_dir "project.csv" in
    let org_csv := join data_dir "organization.csv" in
    if path_exists w project_csv && path_exists w org_csv then (w, Returned tt)
    else
      let zip_path := join data_dir "cordis.zip" in
      (_ <~ (fun w => if path_exists w zip_path then (w, Returned tt)
                      else download net url zip_path w) ;;
       extractall unzip zip_path data_dir) w.

(** [pd.read_csv(path, sep=sep, ...)] *)
Definition read_csv (parse : Parser) (path sep : string) : io DataFrame :=
  fun w =>
    match content path (files w) with
    | Some data => (w, parse sep data)
    | None => (w, Raised (OSError "No such file or directory"))
    end.

(** Lines 43-56: an exception of either read is printed and turned into
    [(None, None)]. *)
Definition load_data (net : Network) (unzip : Unzip) (parse : Parser)
  : io (option (DataFrame * DataFrame)) :=
  let data_dir := "cordis_data" in
  _ <~ download_and_extract net unzip ZIP_URL data_dir ;;
  fun w =>
    match (projects_df <~ read_csv parse (join data_dir "project.csv") ";" ;;
           orgs_df <~ read_csv parse (join data_dir "organization.csv") ";" ;;
           ret (projects_df, orgs_df)) w with
    | (w', Returned tables) => (w', Returned (Some tables))
    | (w', Raised _) => (w', Returned None)
    end.

(** What [find_coordinators] reads, in a world. *)
Definition files_in (net : Network) (unzip : Unzip) (parse : Parser) (w : World)
  : World * Files :=
  let (w', loaded) := load_data net unzip parse w in
  (w', mkFiles loaded
               (snd (read_csv parse "cordis-HEprojects.csv" "," w'))
               (snd (read_csv parse "cordis-HEorganizations.csv" "," w'))).

(** ** The script body (lines 168-193) *)

(** [bool(s)] for a string *)
Definition nonempty (s : string) : bool := negb (String.eqb s "").

Section Script.

Context {F : Type} `{Float64 F} {U : Unicode}.

(** The parsed arguments: the query, [--top] and [--csv]. *)
Record Args : Type := mkArgs {
  query : option string;
  top : Z;
  csv : option string
}.

(** What the script does that can be seen from outside: a search, a CSV
    file written, the two messages of the script itself. *)
Inductive Event : Type :=
| Searched (q : string) (n_top : Z)
| Saved (path : string) (results : list (ResultRow (F := F)))
| NoQueryProvided
| ErrorReported.

(** How the script ends: normally, or with the [EOFError] of the last
    [input] when the standard input is exhausted. *)
Inductive Ending : Type :=
| Exited
| EndOfInput.

(** [input(...)]: the next line, or [None] for the [EOFError]. *)
Definition input (stdin : list string) : option string * list string :=
  match stdin with
  | [] => (None, [])
  | line :: rest => (Some line, rest)
  end.

(** Lines 183-189, for the query in hand. *)
Definition search_and_save
    (find : string -> Z -> outcome (option (list ResultRow)))
    (args : Args) (q : string) : list Event :=
  if nonempty q && nonempty (str_strip q) then
    match find (str_strip q) (top args) with
    | Raised _ => [Searched (str_strip q) (top args); ErrorReported]
    | Returned results =>
        Searched (str_strip q) (top args)
        :: match csv args, results with
           | Some path, Some (row :: rows) =>
               if nonempty path then [Saved path (row :: rows)] else []
           | _, _ => []
           end
    end
  else [NoQueryProvided].

(** Lines 173-193 *)
Definition script
    (find : string -> Z -> outcome (option (list ResultRow)))
    (args : Args) (stdin : list string) : list Event * Ending :=
  let (events, stdin) :=
    match query args with
    | Some q =>
        if nonempty q then (search_and_save find args q, stdin)
        else match input stdin with
             | (None, rest) => ([ErrorReported], rest)
             | (Some line, rest) => (search_and_save find args line, rest)
             end
    | None =>
        match input stdin with
        | (None, rest) => ([ErrorReported], rest)
        | (Some line, rest) => (search_and_save find args line, rest)
        end
    end in
  match input stdin with
  | (None, _) => (events, EndOfInput)
  | (Some _, _) => (events, Exited)
  end.

End Script.

End IO.

(** Further tables, worlds and collaborators for the examples. *)
Module Cases.

(** A project whose [projectID] cell is missing although its [id] is not. *)
Definition projects_without_id : DataFrame :=
  mkFrame ["projectID"; "id"; "title"]
    [ row_of [("id", Str "P1"); ("title", Str "Solar cells")] ].

(** A coordinator whose [projectID] cell is missing. *)
Definition organizations_without_id : DataFrame :=
  mkFrame ["projectID"; "name"; "role"]
    [ row_of [("name", Str "OrgX"); ("role", Str "coordinator")] ].

Definition empty_world : IO.World := IO.mkWorld [] [] [].

Definition cached_world : IO.World :=
  IO.mkWorld ["cordis_data"]
             [("cordis_data/project.csv", "projects");
              ("cordis_data/organization.csv", "organizations")]
             [].

Definition archive_world : IO.World :=
  IO.mkWorld ["cordis_data"] [("cordis_data/cordis.zip", "PK")] [].

Definition offline : IO.Network :=
  fun _ => Raised (OSError "ConnectionError").

Definition broken_stream : IO.Network :=
  fun _ => Returned (IO.mkResponse 200 ["PK"; "12"]
                                   (Some (OSError "ChunkedEncodingError"))).

Definition serving : IO.Network :=
  fun _ => Returned (IO.mkResponse 200 ["P"; "K"] None).

Definition tables_archive : IO.Unzip :=
  fun data =>
    if String.eqb data "PK"
    then Returned (IO.mkArchive [("project.csv", "projects");
                                 ("organization.csv", "organizations")] None)
    else Raised (ValueError "BadZipFile").

Definition projects_only_archive : IO.Unzip :=
  fun _ => Returned (IO.mkArchive [("project.csv", "projects")] None).

Definition parse_tables : IO.Parser :=
  fun _ data =>
    if String.eqb data "projects" then Returned Examples.projects
    else if String.eqb data "organizations" then Returned Examples.organizations
    else Raised (ValueError "ParserError").

(** A search that finds rows for "climate" only. *)
Definition find_climate (q : string) (n_top : Z)
  : outcome (option (list (ResultRow (F := Z)))) :=
  if String.eqb q "climate" then Returned (Some Examples.climate_rows)
  else Returned (Some []).

End Cases.

(** * Properties *)

(** ** Lists, masks and loops *)

Lemma select_map {A : Type} (f : A -> bool) (l : list A) :
  select (map f l) l = filter f l.
Proof.
  induction l as [|a l IH]; simpl; [reflexivity|].
  destruct (f a); rewrite IH; reflexivity.
Qed.

Lemma filter_filter {A : Type} (f g : A -> bool) (l : list A) :
  filter g (filter f l) = filter (fun a => f a && g a) l.
Proof.
  induction l as [|a l IH]; simpl; [reflexivity|].
  destruct (f a); simpl; [destruct (g a)|]; rewrite IH; reflexivity.
Qed.

Lemma zip_with_length {A B C : Type} (f : A -> B -> C) (l : list A) (l' : list B) :
  List.length l = List.length l' ->
  List.length (zip_with f l l') = List.length l.
Proof.
  revert l'; induction l as [|a l IH]; intros [|b l'] E; simpl in *;
    try discriminate; [reflexivity|].
  f_equal. apply IH. lia.
Qed.

Lemma zip_with_map {A B C D : Type} (f : A -> B -> C) (g : C -> D)
    (l : list A) (l' : list B) :
  map g (zip_with f l l') = zip_with (fun a b => g (f a b)) l l'.
Proof.
  revert l'; induction l as [|a l IH]; intros [|b l']; simpl; try reflexivity.
  rewrite IH. reflexivity.
Qed.

Lemma zip_with_snd {A B : Type} (l : list A) (l' : list B) :
  List.length l = List.length l' ->
  zip_with (fun _ b => b) l l' = l'.
Proof.
  revert l'; induction l as [|a l IH]; intros [|b l'] E; simpl in *;
    try discriminate; [reflexivity|].
  f_equal. apply IH. lia.
Qed.

Lemma zip_with_maps {A B C D : Type} (f : B -> C -> D) (g : A -> B) (h : A -> C)
    (l : list A) :
  zip_with f (map g l) (map h l) = map (fun a => f (g a) (h a)) l.
Proof.
  induction l as [|a l IH]; simpl; [reflexivity|]. rewrite IH. reflexivity.
Qed.

Lemma for_each_returns {A B : Type} (body : A -> outcome (list B))
    (rows_of : A -> list B) (l : list A) :
  (forall a, In a l -> body a = Returned (rows_of a)) ->
  for_each body l = Returned (flat_map rows_of l).
Proof.
  induction l as [|a l IH]; intros Hb; simpl; [reflexivity|].
  rewrite (Hb a (or_introl eq_refl)). simpl.
  rewrite IH by (intros; apply Hb; right; assumption).
  reflexivity.
Qed.

Lemma for_each_raises_first {A B : Type} (body : A -> outcome (list B))
    (a : A) (l : list A) (e : exn) :
  body a = Raised e -> for_each body (a :: l) = Raised e.
Proof. intros Hb. simpl. rewrite Hb. reflexivity. Qed.

(** ** Tables *)

Lemma has_column_In (df : DataFrame) (c : string) :
  has_column df c = true <-> In c (columns df).
Proof.
  unfold has_column. rewrite existsb_exists. split.
  - intros [x [Hin Heq]]. apply String.eqb_eq in Heq. subst. assumption.
  - intros Hin. exists c. split; [assumption | apply String.eqb_refl].
Qed.

Lemma getitem_present (df : DataFrame) (c : string) :
  has_column df c = true ->
  getitem df c = Returned (map (fun r : Row => r c) (rows df)).
Proof. intros Hc. unfold getitem. rewrite Hc. reflexivity. Qed.

Lemma getitem_absent (df : DataFrame) (c : string) :
  has_column df c = false -> getitem df c = Raised (KeyError c).
Proof. intros Hc. unfold getitem. rewrite Hc. reflexivity. Qed.

Lemma has_column_getmask (df : DataFrame) (mask : list bool) (c : string) :
  has_column (getmask df mask) c = has_column df c.
Proof. reflexivity. Qed.

Lemma has_column_setitem_same (df : DataFrame) (c : string) (values : list Cell) :
  has_column (setitem df c values) c = true.
Proof.
  apply has_column_In. unfold setitem; simpl.
  destruct (has_column df c) eqn:Hc.
  - apply has_column_In; assumption.
  - apply in_or_app; right; left; reflexivity.
Qed.

Lemma getitem_setitem_same (df : DataFrame) (c : string) (values : list Cell) :
  List.length values = List.length (rows df) ->
  getitem (setitem df c values) c = Returned values.
Proof.
  intros Hlen. rewrite getitem_present by apply has_column_setitem_same.
  f_equal. unfold setitem; simpl. rewrite zip_with_map.
  unfold set_cell. rewrite String.eqb_refl.
  apply zip_with_snd. symmetry; assumption.
Qed.

Lemma rows_setitem_length (df : DataFrame) (c : string) (values : list Cell) :
  List.length values = List.length (rows df) ->
  List.length (rows (setitem df c values)) = List.length (rows df).
Proof.
  intros Hlen. unfold setitem; simpl. apply zip_with_length. symmetry; assumption.
Qed.

Lemma cell_eq_exact (a b : Cell) :
  cell_eq a b = true
  <-> (exists s, a = Str s /\ b = Str s)
      \/ (exists x y sx sy,
             a = Num x sx /\ b = Num y sy /\ QArith_base.Qeq x y).
Proof.
  destruct a as [|x sx|s], b as [|y sy|t]; simpl; split;
    try discriminate;
    try (intros [[u [E1 E2]]|[x' [y' [sx' [sy' [E1 [E2 _]]]]]]]; discriminate).
  - intros E. right. exists x, y, sx, sy. repeat split.
    apply QArith_base.Qeq_bool_eq. exact E.
  - intros [[u [E1 E2]]|[x' [y' [sx' [sy' [E1 [E2 E]]]]]]]; [discriminate|].
    inversion E1; inversion E2; subst. apply QArith_base.Qeq_eq_bool. exact E.
  - intros E. left. apply String.eqb_eq in E. subst. exists t. split; reflexivity.
  - intros [[u [E1 E2]]|[x' [y' [sx' [sy' [E1 [E2 _]]]]]]]; [|discriminate].
    inversion E1; inversion E2; subst. apply String.eqb_refl.
Qed.

(** ** Coordinator look-up *)

Lemma project_coordinators_spec (orgs_df : DataFrame) (X : Cell) :
  has_column orgs_df "projectID" = true ->
  project_coordinators orgs_df X
  = if has_column orgs_df "role"
    then if can_use_str (dtype orgs_df "role") (selected_roles orgs_df X)
         then Returned (mkTable (columns orgs_df)
                                (filter (coordinator_of X) (rows orgs_df))
                                (dtype orgs_df))
         else Raised (AttributeError
                        "Can only use .str accessor with string values!")
    else Returned empty_frame.
Proof.
  intros Hid. unfold project_coordinators.
  rewrite (getitem_present _ _ Hid). cbn [bind].
  rewrite has_column_getmask.
  destruct (has_column orgs_df "role") eqn:Hrole; [|reflexivity].
  rewrite getitem_present by (rewrite has_column_getmask; assumption).
  cbn [bind]. unfold getmask at 1 2 3. cbn [rows columns dtype].
  rewrite (map_map (fun r : Row => r "projectID") (fun c => cell_eq c X)).
  rewrite (select_map (fun r : Row => cell_eq (r "projectID") X)).
  fold (selected_roles orgs_df X). unfold lower_column.
  destruct (can_use_str (dtype orgs_df "role") (selected_roles orgs_df X));
    [|reflexivity].
  cbn [bind]. unfold getmask. cbn [rows columns dtype]. f_equal. f_equal.
  unfold selected_roles. rewrite !map_map.
  change (fun x : Row => cell_eq (lower_cell (x "role")) (Str "coordinator"))
    with (fun x : Row => is_coordinator (x "role")).
  rewrite (select_map (fun r : Row => cell_eq (r "projectID") X)).
  rewrite (select_map (fun r : Row => is_coordinator (r "role"))).
  rewrite filter_filter. reflexivity.
Qed.

Lemma existsb_map_filter_false {A B : Type} (p : B -> bool) (g : A -> B)
    (f : A -> bool) (l : list A) :
  forallb (fun a => negb (p (g a))) l = true ->
  existsb p (map g (filter f l)) = false.
Proof.
  induction l as [|a l IH]; simpl; [reflexivity|].
  intros Hall. apply andb_true_iff in Hall. destruct Hall as [Ha Hl].
  destruct (f a); simpl; [|apply IH; exact Hl].
  apply negb_true_iff in Ha. rewrite Ha. apply IH; exact Hl.
Qed.

Lemma holds_text_can_use_str (orgs_df : DataFrame) (X : Cell) :
  holds_text orgs_df "role" = true ->
  can_use_str (dtype orgs_df "role") (selected_roles orgs_df X) = true.
Proof.
  unfold holds_text, can_use_str, selected_roles.
  destruct (dtype orgs_df "role"); [|discriminate].
  intros Hall. rewrite (existsb_map_filter_false is_num _ _ _ Hall). reflexivity.
Qed.

Lemma project_coordinators_returns (orgs_df : DataFrame) (X : Cell) :
  lookup_runs orgs_df = true ->
  project_coordinators orgs_df X = Returned (coordinators_of orgs_df X).
Proof.
  unfold lookup_runs. intros Hruns. apply andb_true_iff in Hruns.
  destruct Hruns as [Hid Hrole].
  rewrite (project_coordinators_spec _ _ Hid). unfold coordinators_of.
  destruct (has_column orgs_df "role"); [|reflexivity].
  simpl in Hrole. rewrite (holds_text_can_use_str _ _ Hrole). reflexivity.
Qed.

Lemma project_coordinators_raises (orgs_df : DataFrame) (X : Cell) :
  has_column orgs_df "projectID" = false ->
  project_coordinators orgs_df X = Raised (KeyError "projectID").
Proof.
  intros Hid. unfold project_coordinators.
  rewrite (getitem_absent _ _ Hid). reflexivity.
Qed.

Lemma project_coordinators_empty (orgs_df : DataFrame) (X : Cell)
    (coordinators : DataFrame) :
  project_coordinators orgs_df X = Returned coordinators ->
  empty coordinators = true <-> rows coordinators = [].
Proof.
  intros Hr.
  destruct (has_column orgs_df "projectID") eqn:Hid.
  - rewrite (project_coordinators_spec _ _ Hid) in Hr.
    destruct (has_column orgs_df "role");
      [|inversion Hr; subst; simpl; tauto].
    destruct (can_use_str _ _); [|discriminate].
    inversion Hr; subst; clear Hr.
    unfold empty. cbn [columns rows].
    apply has_column_In in Hid.
    destruct (columns orgs_df) as [|c cs]; [destruct Hid|]. simpl.
    destruct (filter (coordinator_of X) (rows orgs_df)); simpl; split;
      congruence.
  - rewrite (project_coordinators_raises _ _ Hid) in Hr. discriminate.
Qed.

Lemma project_coordinators_rows (orgs_df : DataFrame) (X : Cell)
    (coordinators : DataFrame) :
  project_coordinators orgs_df X = Returned coordinators ->
  coordinators = coordinators_of orgs_df X.
Proof.
  intros Hr.
  destruct (has_column orgs_df "projectID") eqn:Hid.
  - rewrite (project_coordinators_spec _ _ Hid) in Hr. unfold coordinators_of.
    destruct (has_column orgs_df "role"); [|inversion Hr; reflexivity].
    destruct (can_use_str _ _); [|discriminate].
    inversion Hr; reflexivity.
  - rewrite (project_coordinators_raises _ _ Hid) in Hr. discriminate.
Qed.

Lemma lower_char_idempotent (c : ascii) : lower_char (lower_char c) = lower_char c.
Proof. destruct c as [[] [] [] [] [] [] [] []]; reflexivity. Qed.

Lemma lower_idempotent (s : string) : lower (lower s) = lower s.
Proof.
  induction s as [|c s IH]; simpl; [reflexivity|].
  rewrite lower_char_idempotent, IH. reflexivity.
Qed.

(** The role test does not see the case of the role: a role and its
    lower-case form are kept or dropped together. *)
Lemma is_coordinator_ignores_case (s : string) :
  is_coordinator (Str (lower s)) = is_coordinator (Str s).
Proof. unfold is_coordinator. simpl. rewrite lower_idempotent. reflexivity. Qed.

Lemma is_coordinator_text (c : Cell) :
  is_coordinator c
  = match c with
    | Str s => String.eqb (lower s) "coordinator"
    | _ => false
    end.
Proof. destruct c; reflexivity. Qed.

Example is_coordinator_upper : is_coordinator (Str "COORDINATOR") = true.
Proof. reflexivity. Qed.

Example linkage_is_exact :
  cell_eq (Str "p3") (Str "P3") = false /\ cell_eq (Str " P3") (Str "P3") = false.
Proof. split; reflexivity. Qed.

Example linkage_is_by_value :
  cell_eq (Num (integer 7) "7") (Num (integer 7) "7.0") = true
  /\ cell_eq (Num (integer 7) "7") (Str "7") = false.
Proof. split; reflexivity. Qed.

(** C1 (as amended).  For every organizations table that has the
    [projectID] column and every project identifier [X]: when the table has
    no [role] column the look-up returns the empty table; when its [role]
    column holds text the look-up returns the table's rows, in table order,
    whose [projectID] value equals [X] (numbers by value, texts exactly) and
    whose role is "coordinator" up to case; when its [role] column is a
    numeric column the look-up raises [AttributeError]. *)
Theorem project_coordinators_exact (orgs_df : DataFrame) (X : Cell) :
  has_column orgs_df "projectID" = true ->
  (has_column orgs_df "role" = false ->
   exists coordinators,
     project_coordinators orgs_df X = Returned coordinators
     /\ rows coordinators = [])
  /\ (has_column orgs_df "role" = true ->
      holds_text orgs_df "role" = true ->
      exists coordinators,
        project_coordinators orgs_df X = Returned coordinators
        /\ rows coordinators
           = filter (fun r : Row =>
                       cell_eq (r "projectID") X
                       && match r "role" with
                          | Str s => String.eqb (lower s) "coordinator"
                          | _ => false
                          end)
                    (rows orgs_df))
  /\ (has_column orgs_df "role" = true ->
      dtype orgs_df "role" = Numeric ->
      project_coordinators orgs_df X
      = Raised (AttributeError
                  "Can only use .str accessor with string values!")).
Proof.
  intros Hid. rewrite (project_coordinators_spec _ _ Hid).
  split; [|split].
  - intros Hrole. rewrite Hrole. eexists. split; reflexivity.
  - intros Hrole Htext. rewrite Hrole, (holds_text_can_use_str _ _ Htext).
    eexists. split; [reflexivity|]. cbn [rows].
    apply filter_ext. intros r. unfold coordinator_of.
    rewrite is_coordinator_text. reflexivity.
  - intros Hrole Hnum. rewrite Hrole, Hnum. reflexivity.
Qed.

Lemma project_coordinators_exact_witness :
  exists coordinators,
    project_coordinators Examples.ranked_organizations (Num (integer 103) "103")
    = Returned coordinators
    /\ map (fun r : Row => r "name") (rows coordinators) = [Str "OrgB"].
Proof.
  destruct (project_coordinators_exact Examples.ranked_organizations
              (Num (integer 103) "103") eq_refl)
    as [_ [Htext _]].
  destruct (Htext eq_refl eq_refl) as [coordinators [Hret Hrows]].
  exists coordinators. split; [exact Hret|].
  rewrite Hrows. reflexivity.
Defined.

(** C1 fails as stated: on a table with neither a [projectID] nor a [role]
    column the look-up raises [KeyError] instead of returning the empty
    sequence; and on a table whose [role] fields are all empty it raises
    [AttributeError] instead of returning the matching rows. *)
Lemma project_coordinators_needs_linkage :
  has_column Examples.names_only "role" = false
  /\ project_coordinators Examples.names_only (Str "P1")
     = Raised (KeyError "projectID")
  /\ (forall coordinators,
         project_coordinators Examples.names_only (Str "P1")
         <> Returned coordinators)
  /\ project_coordinators Examples.empty_roles (Str "P1")
     = Raised (AttributeError "Can only use .str accessor with string values!").
Proof.
  split; [reflexivity|]. split; [reflexivity|]. split; [|reflexivity].
  intros coordinators Hc. vm_compute in Hc. discriminate.
Qed.

(** ** Corpus preparation *)

Lemma append_assoc (a b c : string) :
  ((a ++ b) ++ c)%string = (a ++ b ++ c)%string.
Proof. induction a as [|x a IH]; simpl; [reflexivity|]. rewrite IH. reflexivity. Qed.

Lemma concat_cons2 (sep a b : string) (l : list string) :
  String.concat sep (a :: b :: l)
  = (a ++ sep ++ String.concat sep (b :: l))%string.
Proof. reflexivity. Qed.

Lemma fold_left_join (l : list string) (a : string) :
  fold_left (fun acc s => (acc ++ " " ++ s)%string) l a = String.concat " " (a :: l).
Proof.
  revert a; induction l as [|s l IH]; intros a; [reflexivity|].
  cbn [fold_left]. rewrite IH.
  destruct l as [|t l]; [reflexivity|].
  rewrite !concat_cons2, append_assoc. reflexivity.
Qed.

Lemma collect_text_returns (projects_df : DataFrame) (cols : list string) :
  collect_text projects_df cols
  = Returned (map (text_column projects_df) (filter (has_column projects_df) cols)).
Proof.
  induction cols as [|c cols IH]; simpl; [reflexivity|].
  destruct (has_column projects_df c) eqn:Hc; [|exact IH].
  rewrite (getitem_present _ _ Hc), IH. simpl.
  unfold text_column. rewrite map_map. reflexivity.
Qed.

Lemma fold_add_column (projects_df : DataFrame) (cs : list string) (g : Row -> string) :
  fold_left add_column (map (text_column projects_df) cs) (map g (rows projects_df))
  = map (fun r : Row =>
           fold_left (fun acc s => (acc ++ " " ++ s)%string)
                     (map (fun c => fillna_str (r c)) cs) (g r))
        (rows projects_df).
Proof.
  revert g; induction cs as [|c cs IH]; intros g; simpl; [reflexivity|].
  unfold add_column at 2, text_column at 2.
  rewrite zip_with_maps. apply IH.
Qed.

Lemma combined_text_joined (projects_df : DataFrame) :
  combined_text (map (text_column projects_df) (present_text_columns projects_df))
  = match present_text_columns projects_df with
    | [] => None
    | _ => Some (map (joined_text projects_df) (rows projects_df))
    end.
Proof.
  unfold joined_text.
  destruct (present_text_columns projects_df) as [|c cs]; [reflexivity|].
  simpl map at 1. unfold combined_text.
  unfold text_column at 2. rewrite fold_add_column. f_equal.
  apply map_ext. intros r. apply fold_left_join.
Qed.

Lemma prepare_corpus_returns (projects_df : DataFrame) :
  prepare_corpus projects_df
  = Returned
      match present_text_columns projects_df with
      | [] => None
      | _ => Some (setitem projects_df "combined_text"
                     (map Str (map (joined_text projects_df) (rows projects_df))))
      end.
Proof.
  unfold prepare_corpus. rewrite collect_text_returns. simpl bind.
  fold (present_text_columns projects_df). rewrite combined_text_joined.
  destruct (present_text_columns projects_df); reflexivity.
Qed.

Lemma present_text_columns_nonempty (projects_df : DataFrame) :
  has_column projects_df "title" = true
  \/ has_column projects_df "objective" = true
  \/ has_column projects_df "topics" = true ->
  present_text_columns projects_df <> [].
Proof.
  unfold present_text_columns, text_columns. simpl.
  intros [Hc | [Hc | Hc]]; rewrite Hc;
    repeat match goal with |- context [if ?b then _ else _] => destruct b end;
    discriminate.
Qed.

Lemma present_text_columns_empty (projects_df : DataFrame) :
  has_column projects_df "title" = false ->
  has_column projects_df "objective" = false ->
  has_column projects_df "topics" = false ->
  present_text_columns projects_df = [].
Proof.
  intros H1 H2 H3. unfold present_text_columns, text_columns. simpl.
  rewrite H1, H2, H3. reflexivity.
Qed.

(** C8.  For every projects table with at least one of the columns title,
    objective, topics, the preparation returns the table with a
    [combined_text] column in which each row holds the values of the
    present columns, in that order, missing cells as empty strings, joined
    by single spaces; an absent column adds neither text nor separator. *)
Theorem combined_text_is_joined_text (projects_df : DataFrame) :
  has_column projects_df "title" = true
  \/ has_column projects_df "objective" = true
  \/ has_column projects_df "topics" = true ->
  exists prepared,
    prepare_corpus projects_df = Returned (Some prepared)
    /\ getitem prepared "combined_text"
       = Returned
           (map (fun r : Row =>
                   Str (String.concat " "
                          (map (fun c => fillna_str (r c))
                               (filter (has_column projects_df)
                                       ["title"; "objective"; "topics"]))))
                (rows projects_df)).
Proof.
  intros Hsome. apply present_text_columns_nonempty in Hsome.
  rewrite prepare_corpus_returns.
  destruct (present_text_columns projects_df) eqn:Hp; [contradiction|].
  eexists. split; [reflexivity|].
  rewrite getitem_setitem_same by (rewrite !length_map; reflexivity).
  rewrite map_map. unfold joined_text, present_text_columns, text_columns.
  reflexivity.
Qed.

Lemma combined_text_is_joined_text_witness :
  exists prepared,
    prepare_corpus Examples.projects = Returned (Some prepared)
    /\ getitem prepared "combined_text"
       = Returned [ Str "AI for climate modeling ";
                    Str "Battery recycling chemistry HORIZON-CL5";
                    Str "Quantum sensor networks " ].
Proof.
  destruct (combined_text_is_joined_text Examples.projects (or_introl eq_refl))
    as [prepared [Hp Hc]].
  exists prepared. split; [exact Hp|]. rewrite Hc. reflexivity.
Defined.

(** ** Slices and sorted lists *)

Lemma slice_from_skipn {A : Type} (start : Z) (l : list A) :
  exists k, slice_from start l = skipn k l.
Proof. unfold slice_from. eexists. reflexivity. Qed.

Lemma slice_from_zero {A : Type} (l : list A) : slice_from 0 l = l.
Proof.
  unfold slice_from. simpl.
  replace (Z.to_nat (Z.min 0 (Z.of_nat (List.length l)))) with 0 by lia.
  reflexivity.
Qed.

Lemma slice_from_last {A : Type} (n : Z) (l : list A) :
  (0 < n)%Z ->
  slice_from (- n) l = skipn (List.length l - Z.to_nat n) l.
Proof.
  intros Hn. unfold slice_from.
  destruct (Z.ltb_spec (- n) 0) as [_|Hge]; [|lia].
  f_equal. lia.
Qed.

Lemma slice_from_last_length {A : Type} (n : Z) (l : list A) :
  (0 < n)%Z ->
  List.length (slice_from (- n) l) = Nat.min (Z.to_nat n) (List.length l).
Proof.
  intros Hn. rewrite (slice_from_last _ _ Hn), length_skipn. lia.
Qed.

Lemma slice_from_drop {A : Type} (n : Z) (l : list A) :
  (n < 0)%Z ->
  slice_from (- n) l = skipn (Nat.min (Z.to_nat (- n)) (List.length l)) l.
Proof.
  intros Hn. unfold slice_from.
  destruct (Z.ltb_spec (- n) 0) as [Hlt|_]; [lia|].
  f_equal. lia.
Qed.

Lemma In_skipn {A : Type} (k : nat) (l : list A) (a : A) :
  In a (skipn k l) -> In a l.
Proof.
  intros Hin. rewrite <- (firstn_skipn k l). apply in_or_app. right; assumption.
Qed.

Lemma NoDup_skipn {A : Type} (k : nat) (l : list A) :
  NoDup l -> NoDup (skipn k l).
Proof.
  revert l; induction k as [|k IH]; intros [|a l] Hnd; simpl; try assumption.
  apply IH. inversion Hnd; assumption.
Qed.

Lemma StronglySorted_skipn {A : Type} (R : A -> A -> Prop) (k : nat) (l : list A) :
  StronglySorted R l -> StronglySorted R (skipn k l).
Proof.
  revert l; induction k as [|k IH]; intros [|a l] Hs; simpl; try assumption.
  apply IH. inversion Hs; assumption.
Qed.

Lemma StronglySorted_snoc {A : Type} (R : A -> A -> Prop) (l : list A) (a : A) :
  StronglySorted R l -> Forall (fun x => R x a) l -> StronglySorted R (l ++ [a]).
Proof.
  induction 1 as [|x l Hs IH Hx]; intros Hall; simpl.
  - constructor; constructor.
  - inversion Hall; subst. constructor; [apply IH; assumption|].
    apply Forall_app. split; [assumption|]. constructor; [assumption|constructor].
Qed.

Lemma StronglySorted_rev {A : Type} (R : A -> A -> Prop) (l : list A) :
  StronglySorted R l -> StronglySorted (fun x y => R y x) (rev l).
Proof.
  induction 1 as [|a l Hs IH Ha]; simpl; [constructor|].
  apply StronglySorted_snoc; [assumption|].
  apply Forall_rev. assumption.
Qed.

Lemma StronglySorted_app {A : Type} (R : A -> A -> Prop) (l l' : list A) :
  StronglySorted R l -> StronglySorted R l' ->
  (forall x y, In x l -> In y l' -> R x y) ->
  StronglySorted R (l ++ l').
Proof.
  induction 1 as [|a l Hs IH Ha]; intros Hs' Hcross; simpl; [assumption|].
  constructor.
  - apply IH; [assumption|]. intros x y Hx Hy. apply Hcross; [right|]; assumption.
  - apply Forall_app. split; [assumption|].
    apply Forall_forall. intros y Hy. apply Hcross; [left; reflexivity|assumption].
Qed.

Lemma StronglySorted_flat_map {A B : Type} (R : A -> A -> Prop) (Q : B -> B -> Prop)
    (f : A -> list B) (l : list A) :
  (forall a, In a l -> StronglySorted Q (f a)) ->
  (forall a b x y, R a b -> In x (f a) -> In y (f b) -> Q x y) ->
  StronglySorted R l ->
  StronglySorted Q (flat_map f l).
Proof.
  intros Hblock Hcross. induction 1 as [|a l Hs IH Ha]; simpl; [constructor|].
  apply StronglySorted_app.
  - apply Hblock. left; reflexivity.
  - apply IH. intros b Hb. apply Hblock. right; assumption.
  - intros x y Hx Hy. apply in_flat_map in Hy. destruct Hy as [b [Hb Hy]].
    rewrite Forall_forall in Ha. apply (Hcross a b); auto.
Qed.

Lemma StronglySorted_adjacent {A : Type} (R : A -> A -> Prop) (l : list A)
    (i : nat) (a b : A) :
  StronglySorted R l ->
  nth_error l i = Some a -> nth_error l (S i) = Some b -> R a b.
Proof.
  intros Hs. revert i. induction Hs as [|x l Hs IH Hx]; intros i Ha Hb.
  - destruct i; discriminate.
  - destruct i as [|i]; simpl in Ha, Hb.
    + inversion Ha; subst. rewrite Forall_forall in Hx. apply Hx.
      destruct l; [discriminate|]. simpl in Hb. inversion Hb. left; reflexivity.
    + apply (IH i); assumption.
Qed.

Lemma StronglySorted_all_related {A : Type} (R : A -> A -> Prop) (l : list A) :
  (forall x y, In x l -> In y l -> R x y) -> StronglySorted R l.
Proof.
  induction l as [|a l IH]; intros Hall; constructor.
  - apply IH. intros x y Hx Hy. apply Hall; right; assumption.
  - apply Forall_forall. intros y Hy. apply Hall; [left; reflexivity|right; assumption].
Qed.

Lemma StronglySorted_impl {A : Type} (R Q : A -> A -> Prop) (l : list A) :
  (forall x y, R x y -> Q x y) -> StronglySorted R l -> StronglySorted Q l.
Proof.
  intros HRQ. induction 1 as [|a l Hs IH Ha]; constructor; [assumption|].
  eapply Forall_impl; [|exact Ha]. intros y. apply HRQ.
Qed.

(** ** Ranking *)

Section RankingFacts.

Context {F : Type} `{Float64Laws F} {U : Unicode}.

Lemma fleb_refl (x : F) : fleb x x = true.
Proof. destruct (fleb_total x x); assumption. Qed.

Section AnyArgsort.

Variable argsort : list F -> list nat.
Hypothesis contract : argsort_contract argsort.

Lemma argsort_ascending (similarities : list F) :
  StronglySorted
    (fun i j => fleb (score_at similarities i) (score_at similarities j) = true)
    (argsort similarities).
Proof.
  apply Sorted_StronglySorted; [|apply contract].
  intros i j k. apply fleb_trans.
Qed.

Lemma argsort_length (similarities : list F) :
  List.length (argsort similarities) = List.length similarities.
Proof.
  rewrite (Permutation_length (proj1 (contract similarities))).
  apply length_seq.
Qed.

Lemma top_indices_descending (similarities : list F) (n_top : Z) :
  StronglySorted
    (fun i j => fleb (score_at similarities j) (score_at similarities i) = true)
    (top_indices argsort similarities n_top).
Proof.
  unfold top_indices.
  destruct (slice_from_skipn (- n_top) (argsort similarities)) as [k ->].
  apply (StronglySorted_rev
           (fun i j => fleb (score_at similarities i)
                            (score_at similarities j) = true)).
  apply StronglySorted_skipn, argsort_ascending.
Qed.

Lemma top_indices_in_range (similarities : list F) (n_top : Z) (i : nat) :
  In i (top_indices argsort similarities n_top) ->
  i < List.length similarities.
Proof.
  unfold top_indices. intros Hin. apply in_rev in Hin.
  destruct (slice_from_skipn (- n_top) (argsort similarities)) as [k Hk].
  rewrite Hk in Hin. apply In_skipn in Hin.
  apply (Permutation_in _ (proj1 (contract similarities))) in Hin.
  apply in_seq in Hin. lia.
Qed.

Lemma top_indices_NoDup (similarities : list F) (n_top : Z) :
  NoDup (top_indices argsort similarities n_top).
Proof.
  unfold top_indices. apply NoDup_rev.
  destruct (slice_from_skipn (- n_top) (argsort similarities)) as [k ->].
  apply NoDup_skipn.
  apply (Permutation_NoDup (Permutation_sym (proj1 (contract similarities)))).
  apply seq_NoDup.
Qed.

Lemma top_indices_length (similarities : list F) (n_top : Z) :
  (0 < n_top)%Z ->
  List.length (top_indices argsort similarities n_top)
  = Nat.min (Z.to_nat n_top) (List.length similarities).
Proof.
  intros Hn. unfold top_indices.
  rewrite length_rev, (slice_from_last_length _ _ Hn), argsort_length.
  reflexivity.
Qed.

Lemma top_indices_zero (similarities : list F) :
  top_indices argsort similarities 0 = rev (argsort similarities).
Proof. unfold top_indices. simpl. rewrite slice_from_zero. reflexivity. Qed.

Lemma top_indices_zero_all (similarities : list F) :
  Permutation (top_indices argsort similarities 0)
              (seq 0 (List.length similarities)).
Proof.
  rewrite top_indices_zero.
  eapply Permutation_trans; [apply Permutation_sym, Permutation_rev|].
  apply contract.
Qed.

End AnyArgsort.

(** The insertion sort meets the contract. *)

Lemma insert_index_perm (similarities : list F) (i : nat) (l : list nat) :
  Permutation (insert_index similarities i l) (i :: l).
Proof.
  induction l as [|j l IH]; simpl; [apply Permutation_refl|].
  destruct (flt similarities i j); [apply Permutation_refl|].
  eapply Permutation_trans; [apply perm_skip, IH|apply perm_swap].
Qed.

Lemma insert_index_lex (similarities : list F) (i : nat) (l : list nat) :
  StronglySorted (lex similarities) l ->
  Forall (fun j => j < i) l ->
  StronglySorted (lex similarities) (insert_index similarities i l).
Proof.
  induction 1 as [|j l Hs IH Hj]; intros Hlt; simpl.
  - constructor; constructor.
  - inversion Hlt as [|? ? Hji Hlt']; subst.
    unfold flt. destruct (fleb (score_at similarities j) (score_at similarities i)) eqn:Hle;
      simpl.
    + constructor; [apply IH; assumption|].
      apply Forall_forall. intros k Hk.
      apply (Permutation_in _ (insert_index_perm similarities i l)) in Hk.
      destruct Hk as [<-|Hk].
      * split; [assumption|intros _; assumption].
      * rewrite Forall_forall in Hj. apply Hj; assumption.
    + assert (Hij : fleb (score_at similarities i) (score_at similarities j) = true).
      { destruct (fleb_total (score_at similarities i) (score_at similarities j));
          congruence. }
      constructor; [constructor; assumption|].
      constructor.
      * split; [assumption|]. intros Hc. congruence.
      * apply Forall_forall. intros k Hk. rewrite Forall_forall in Hj.
        destruct (Hj k Hk) as [Hjk _]. split.
        -- eapply fleb_trans; eassumption.
        -- intros Hki. assert (fleb (score_at similarities j)
                                    (score_at similarities i) = true)
             by (eapply fleb_trans; eassumption).
           congruence.
Qed.

Lemma insert_index_bound (similarities : list F) (i b : nat) (l : list nat) :
  i < b -> Forall (fun j => j < b) l ->
  Forall (fun j => j < b) (insert_index similarities i l).
Proof.
  intros Hi Hl. apply Forall_forall. intros k Hk.
  apply (Permutation_in _ (insert_index_perm similarities i l)) in Hk.
  destruct Hk as [<-|Hk]; [assumption|].
  rewrite Forall_forall in Hl. apply Hl; assumption.
Qed.

Lemma insertion_fold (similarities : list F) (len start : nat) (acc : list nat) :
  StronglySorted (lex similarities) acc ->
  Forall (fun j => j < start) acc ->
  let sorted := fold_left (fun sorted i => insert_index similarities i sorted)
                          (seq start len) acc in
  StronglySorted (lex similarities) sorted
  /\ Permutation sorted (acc ++ seq start len).
Proof.
  revert start acc. induction len as [|len IH]; intros start acc Hs Hb; simpl.
  - split; [assumption|]. rewrite app_nil_r. apply Permutation_refl.
  - destruct (IH (S start) (insert_index similarities start acc)) as [Hs' Hp'].
    + apply insert_index_lex; assumption.
    + apply insert_index_bound; [lia|].
      eapply Forall_impl; [|exact Hb]. simpl. intros; lia.
    + split; [exact Hs'|].
      eapply Permutation_trans; [exact Hp'|].
      eapply Permutation_trans;
        [apply Permutation_app_tail, insert_index_perm|].
      simpl. apply Permutation_middle.
Qed.

Lemma insertion_argsort_lex (similarities : list F) :
  StronglySorted (lex similarities) (insertion_argsort similarities)
  /\ Permutation (insertion_argsort similarities)
                 (seq 0 (List.length similarities)).
Proof.
  apply (insertion_fold similarities (List.length similarities) 0 []);
    constructor.
Qed.

Lemma insertion_argsort_contract : argsort_contract (insertion_argsort (F := F)).
Proof.
  intros similarities.
  destruct (insertion_argsort_lex similarities) as [Hs Hp].
  split; [exact Hp|].
  apply StronglySorted_Sorted.
  eapply StronglySorted_impl; [|exact Hs]. intros i j [Hle _]. exact Hle.
Qed.

(** Where no two scores are equal, the contract leaves one index sort. *)

Lemma sorted_permutation_unique {A : Type} (R : A -> A -> Prop) (l1 l2 : list A) :
  (forall x y, In x l1 -> In y l1 -> R x y -> R y x -> x = y) ->
  StronglySorted R l1 -> StronglySorted R l2 -> Permutation l1 l2 -> l1 = l2.
Proof.
  revert l2. induction l1 as [|a l1 IH]; intros l2 Hanti H1 H2 Hp.
  - apply Permutation_nil in Hp. symmetry; exact Hp.
  - destruct l2 as [|b l2];
      [apply Permutation_sym, Permutation_nil in Hp; discriminate|].
    inversion H1 as [|? ? H1' Ha]; subst. inversion H2 as [|? ? H2' Hb]; subst.
    rewrite Forall_forall in Ha, Hb.
    assert (E : a = b).
    { assert (Hina : In a (b :: l2))
        by (apply (Permutation_in _ Hp); left; reflexivity).
      assert (Hinb : In b (a :: l1))
        by (apply (Permutation_in _ (Permutation_sym Hp)); left; reflexivity).
      destruct Hina as [E|Hina]; [symmetry; exact E|].
      destruct Hinb as [E|Hinb]; [exact E|].
      apply Hanti; [left; reflexivity|right; exact Hinb| |].
      - apply Ha. exact Hinb.
      - apply Hb. exact Hina. }
    subst b. f_equal. apply IH; [|assumption|assumption|].
    + intros x y Hx Hy. apply Hanti; right; assumption.
    + apply Permutation_cons_inv in Hp. exact Hp.
Qed.

Lemma argsort_determined (argsort argsort' : list F -> list nat)
    (similarities : list F) :
  argsort_contract argsort -> argsort_contract argsort' ->
  (forall i j, i < List.length similarities -> j < List.length similarities ->
     fleb (score_at similarities i) (score_at similarities j) = true ->
     fleb (score_at similarities j) (score_at similarities i) = true ->
     i = j) ->
  argsort similarities = argsort' similarities.
Proof.
  intros Hc Hc' Hdistinct.
  apply (sorted_permutation_unique
           (fun i j => fleb (score_at similarities i)
                            (score_at similarities j) = true)).
  - intros i j Hi Hj.
    apply (Permutation_in _ (proj1 (Hc similarities))) in Hi, Hj.
    apply in_seq in Hi, Hj. apply Hdistinct; lia.
  - apply argsort_ascending; assumption.
  - apply argsort_ascending; assumption.
  - eapply Permutation_trans; [apply Hc|].
    apply Permutation_sym. apply Hc'.
Qed.

End RankingFacts.

Lemma fixed_round4_bounds (x : Z) :
  exists q r : Z,
    (x = 100000000 * q + r)%Z /\ (0 <= r < 100000000)%Z
    /\ ((2 * r < 100000000 /\ Fixed.round4 x = q * 100000000)
        \/ (100000000 < 2 * r /\ Fixed.round4 x = (q + 1) * 100000000)
        \/ (2 * r = 100000000
            /\ (Fixed.round4 x = q * 100000000
                \/ Fixed.round4 x = (q + 1) * 100000000)))%Z.
Proof.
  exists (x / 100000000)%Z, (x mod 100000000)%Z.
  split; [apply Z.div_mod; discriminate|].
  split; [apply Z.mod_pos_bound; reflexivity|].
  unfold Fixed.round4, Fixed.step. cbv zeta.
  destruct (Z.ltb_spec (2 * (x mod 100000000)) 100000000) as [Hlt|Hge];
    [left; split; [exact Hlt|reflexivity]|].
  destruct (Z.ltb_spec 100000000 (2 * (x mod 100000000))) as [Hgt|Hle];
    [right; left; split; [exact Hgt|reflexivity]|].
  right; right. split; [lia|].
  destruct (Z.even (x / 100000000)); [left|right]; reflexivity.
Qed.

Lemma fixed_round4_mono (x y : Z) :
  (x <= y)%Z -> (Fixed.round4 x <= Fixed.round4 y)%Z.
Proof.
  intros Hxy.
  destruct (Z.eq_dec (x / 100000000) (y / 100000000)) as [Hq|Hq].
  - assert (Hr : (x mod 100000000 <= y mod 100000000)%Z).
    { pose proof (Z.div_mod x 100000000 ltac:(discriminate)).
      pose proof (Z.div_mod y 100000000 ltac:(discriminate)). lia. }
    unfold Fixed.round4, Fixed.step. cbv zeta. rewrite Hq.
    destruct (Z.ltb_spec (2 * (x mod 100000000)) 100000000);
      destruct (Z.ltb_spec (2 * (y mod 100000000)) 100000000);
      destruct (Z.ltb_spec 100000000 (2 * (x mod 100000000)));
      destruct (Z.ltb_spec 100000000 (2 * (y mod 100000000)));
      destruct (Z.even (y / 100000000)); lia.
  - destruct (fixed_round4_bounds x) as [qx [rx [Hx [Hrx Hcx]]]].
    destruct (fixed_round4_bounds y) as [qy [ry [Hy [Hry Hcy]]]].
    assert (Hqx : qx = (x / 100000000)%Z)
      by (apply (Z.div_unique x 100000000 qx rx); [lia|exact Hx]).
    assert (Hqy : qy = (y / 100000000)%Z)
      by (apply (Z.div_unique y 100000000 qy ry); [lia|exact Hy]).
    assert (qx < qy)%Z by lia.
    lia.
Qed.

#[export] Instance Z_scores_laws : Float64Laws Z.
Proof.
  constructor; simpl.
  - intros x y. rewrite !Z.leb_le. lia.
  - intros x y z. rewrite !Z.leb_le. lia.
  - intros x y Hxy. apply Z.leb_le. apply fixed_round4_mono.
    apply Z.leb_le. exact Hxy.
  - reflexivity.
Qed.

(** ** Similarity of a query without vocabulary terms *)

Section SimilarityFacts.

Context {F : Type} `{Float64 F} {U : Unicode}.
Variable stop_words : list string.

Lemma count_terms_none (vocab tokens : list string) :
  (forall t, In t tokens -> ~ In t vocab) ->
  count_terms vocab tokens = [].
Proof.
  intros Hnone. unfold count_terms.
  induction vocab as [|t vocab IH]; simpl; [reflexivity|].
  assert (Hc : count_occ string_dec tokens t = 0).
  { apply count_occ_not_In. intros Hin. apply (Hnone t Hin). left; reflexivity. }
  rewrite Hc. simpl. apply IH.
  intros u Hu Hv. apply (Hnone u Hu). right; assumption.
Qed.

Lemma normalize_nil : normalize (F := F) [] = [].
Proof. unfold normalize. destruct (feqb _ _); reflexivity. Qed.

Lemma transform_unknown_terms (v : Vectorizer) (query : string) :
  (forall t, In t (analyze stop_words query) -> ~ In t (vocabulary_ v)) ->
  transform stop_words v query = [].
Proof.
  intros Hnone. unfold transform.
  rewrite (count_terms_none _ _ Hnone). simpl. apply normalize_nil.
Qed.

Lemma cosine_similarity_nil (m : list SparseRow) :
  cosine_similarity (F := F) [] m = repeat fzero (List.length m).
Proof.
  unfold cosine_similarity. rewrite normalize_nil.
  induction m as [|d m IH]; simpl; [reflexivity|]. rewrite IH. reflexivity.
Qed.

Lemma cosine_similarity_length (q : SparseRow) (m : list SparseRow) :
  List.length (cosine_similarity (F := F) q m) = List.length m.
Proof. unfold cosine_similarity. apply length_map. Qed.

Lemma similarities_of_length (projects_df : DataFrame) (query : string) :
  List.length (similarities_of stop_words projects_df query)
  = List.length (rows projects_df).
Proof.
  unfold similarities_of. rewrite cosine_similarity_length.
  unfold corpus_of. rewrite !length_map. reflexivity.
Qed.

Lemma similarities_of_unknown_terms (projects_df : DataFrame) (query : string) :
  (forall t, In t (analyze stop_words query) ->
             ~ In t (vocabulary stop_words (corpus_of projects_df))) ->
  similarities_of stop_words projects_df query
  = repeat fzero (List.length (rows projects_df)).
Proof.
  intros Hnone. unfold similarities_of.
  rewrite transform_unknown_terms by exact Hnone.
  rewrite cosine_similarity_nil. unfold corpus_of.
  rewrite !length_map. reflexivity.
Qed.

Lemma rows_prepared_length (projects_df : DataFrame) :
  List.length (rows (prepared projects_df)) = List.length (rows projects_df).
Proof.
  unfold prepared. apply rows_setitem_length.
  unfold corpus_of. rewrite !length_map. reflexivity.
Qed.

(** Lines 74-100 in one equation. *)
Lemma score_projects_spec (projects_df : DataFrame) (query : string) :
  score_projects stop_words projects_df query
  = match present_text_columns projects_df with
    | [] => Returned None
    | _ =>
        match vocabulary stop_words (corpus_of projects_df) with
        | [] => Raised (ValueError
                  "empty vocabulary; perhaps the documents only contain stop words")
        | _ => Returned (Some (prepared projects_df,
                               similarities_of stop_words projects_df query))
        end
    end.
Proof.
  unfold score_projects. rewrite prepare_corpus_returns.
  destruct (present_text_columns projects_df) as [|c cs]; [reflexivity|].
  cbn [bind]. fold (corpus_of projects_df). fold (prepared projects_df).
  unfold prepared at 1.
  rewrite getitem_setitem_same
    by (unfold corpus_of; rewrite !length_map; reflexivity).
  cbn [bind]. rewrite map_map. cbn [fillna_str]. rewrite map_id.
  unfold fit_transform, similarities_of, fitted_on.
  destruct (vocabulary stop_words (corpus_of projects_df)); reflexivity.
Qed.

Lemma score_projects_lengths (projects_df prepared_df : DataFrame)
    (query : string) (similarities : list F) :
  score_projects stop_words projects_df query
  = Returned (Some (prepared_df, similarities)) ->
  List.length similarities = List.length (rows prepared_df).
Proof.
  rewrite score_projects_spec.
  destruct (present_text_columns projects_df); [discriminate|].
  destruct (vocabulary stop_words (corpus_of projects_df)); [discriminate|].
  intros E. inversion E; subst.
  rewrite similarities_of_length, rows_prepared_length. reflexivity.
Qed.

End SimilarityFacts.

(** ** Assembly *)

Section PipelineFacts.

Context {F : Type} `{Float64Laws F} {U : Unicode}.
Variable stop_words : list string.
Variable argsort : list F -> list nat.

Lemma iloc_in_range (df : DataFrame) (idx : nat) :
  idx < List.length (rows df) -> iloc df idx = Returned (project_at df idx).
Proof.
  intros Hlt. unfold iloc, project_at.
  rewrite (nth_error_nth' (rows df) (fun _ => NaN) Hlt). reflexivity.
Qed.

Lemma item_in_range (similarities : list F) (idx : nat) :
  idx < List.length similarities ->
  item similarities idx = Returned (score_at similarities idx).
Proof.
  intros Hlt. unfold item, score_at.
  rewrite (nth_error_nth' similarities fzero Hlt). reflexivity.
Qed.

Lemma item_returned (similarities : list F) (idx : nat) (x : F) :
  item similarities idx = Returned x -> x = score_at similarities idx.
Proof.
  unfold item, score_at. destruct (nth_error similarities idx) eqn:E;
    [|discriminate].
  intros E'. inversion E'; subst. symmetry. apply nth_error_nth. exact E.
Qed.

Lemma project_coordinators_of (orgs_df : DataFrame) (X : Cell) :
  lookup_runs orgs_df = true ->
  project_coordinators orgs_df X = Returned (coordinators_of orgs_df X).
Proof. apply project_coordinators_returns. Qed.

Lemma report_project_returns (projects_df orgs_df : DataFrame)
    (similarities : list F) (idx : nat) :
  idx < List.length (rows projects_df) ->
  idx < List.length similarities ->
  lookup_runs orgs_df = true ->
  report_project projects_df orgs_df similarities idx
  = Returned (block projects_df orgs_df similarities idx).
Proof.
  intros Hrow Hsim Hid. unfold report_project, block.
  rewrite (iloc_in_range _ _ Hrow). cbn [bind].
  rewrite (item_in_range _ _ Hsim). cbn [bind].
  rewrite (project_coordinators_of _ _ Hid). reflexivity.
Qed.

Lemma report_project_raises (projects_df orgs_df : DataFrame)
    (similarities : list F) (idx : nat) :
  idx < List.length (rows projects_df) ->
  idx < List.length similarities ->
  has_column orgs_df "projectID" = false ->
  report_project projects_df orgs_df similarities idx
  = Raised (KeyError "projectID").
Proof.
  intros Hrow Hsim Hid. unfold report_project.
  rewrite (iloc_in_range _ _ Hrow). cbn [bind].
  rewrite (item_in_range _ _ Hsim). cbn [bind].
  rewrite (project_coordinators_raises _ _ Hid). reflexivity.
Qed.

Lemma rows_for_score (sim_score : F) (project : Series) (coordinators : DataFrame) :
  Forall (fun row => similarity_score row = round4 sim_score
                     /\ project_id row = project_id_of project)
         (rows_for sim_score project coordinators).
Proof.
  unfold rows_for. destruct (negb (empty coordinators)).
  - apply Forall_forall. intros row Hin. apply in_map_iff in Hin.
    destruct Hin as [org [<- _]]. split; reflexivity.
  - constructor; [split; reflexivity|constructor].
Qed.

Lemma rows_for_returned (orgs_df : DataFrame) (X : Cell) (sim_score : F)
    (project : Series) (coordinators : DataFrame) :
  project_coordinators orgs_df X = Returned coordinators ->
  rows_for sim_score project coordinators
  = match iterrows coordinators with
    | [] => [none_found_row sim_score project]
    | orgs => map (coordinator_row sim_score project) orgs
    end.
Proof.
  intros Hret. unfold rows_for.
  pose proof (project_coordinators_empty _ _ _ Hret) as Hempty.
  unfold iterrows.
  destruct (empty coordinators).
  - rewrite (proj1 Hempty eq_refl). reflexivity.
  - destruct (rows coordinators) as [|r rs]; [|reflexivity].
    discriminate (proj2 Hempty eq_refl).
Qed.

Lemma rows_for_shape (orgs_df : DataFrame) (X : Cell) (sim_score : F)
    (project : Series) :
  lookup_runs orgs_df = true ->
  rows_for sim_score project (coordinators_of orgs_df X)
  = match iterrows (coordinators_of orgs_df X) with
    | [] => [none_found_row sim_score project]
    | orgs => map (coordinator_row sim_score project) orgs
    end.
Proof.
  intros Hruns.
  apply (rows_for_returned orgs_df X), project_coordinators_of, Hruns.
Qed.

Lemma report_project_scores (projects_df orgs_df : DataFrame)
    (similarities : list F) (idx : nat) (rs : list ResultRow) :
  report_project projects_df orgs_df similarities idx = Returned rs ->
  Forall (fun row => similarity_score row = round4 (score_at similarities idx)) rs.
Proof.
  unfold report_project.
  destruct (iloc projects_df idx) as [project|]; [|discriminate]. cbn [bind].
  destruct (item similarities idx) as [x|] eqn:Hx; [|discriminate]. cbn [bind].
  destruct (project_coordinators orgs_df (project_id_of project)) as [c|];
    [|discriminate]. cbn [bind].
  intros E. inversion E; subst. apply item_returned in Hx. subst x.
  eapply Forall_impl; [|apply rows_for_score]. intros row [Hs _]. exact Hs.
Qed.

Lemma report_project_returned (projects_df orgs_df : DataFrame)
    (similarities : list F) (idx : nat) (rs : list ResultRow) :
  report_project projects_df orgs_df similarities idx = Returned rs ->
  exists project coordinators,
    iloc projects_df idx = Returned project
    /\ project_coordinators orgs_df (project_id_of project) = Returned coordinators
    /\ rs = rows_for (score_at similarities idx) project coordinators.
Proof.
  unfold report_project.
  destruct (iloc projects_df idx) as [project|]; [|discriminate]. cbn [bind].
  destruct (item similarities idx) as [x|] eqn:Hx; [|discriminate]. cbn [bind].
  destruct (project_coordinators orgs_df (project_id_of project)) as [c|] eqn:Hc;
    [|discriminate]. cbn [bind].
  intros E. inversion E; subst. apply item_returned in Hx. subst x.
  exists project, c. repeat split; assumption.
Qed.

Lemma find_coordinators_returned (files : Files) (query : string) (n_top : Z)
    (results : list ResultRow) :
  find_coordinators stop_words argsort files query n_top
  = Returned (Some results) ->
  exists projects_df orgs_df prepared_df similarities,
    load_tables files = Returned (Some (projects_df, orgs_df))
    /\ score_projects stop_words projects_df query
       = Returned (Some (prepared_df, similarities))
    /\ for_each (report_project prepared_df orgs_df similarities)
                (top_indices argsort similarities n_top)
       = Returned results.
Proof.
  intros Hret. unfold find_coordinators in Hret.
  destruct (load_tables files) as [[[projects_df orgs_df]|]|];
    try discriminate. cbn [bind] in Hret.
  unfold find_in_tables in Hret.
  destruct (score_projects stop_words projects_df query)
    as [[[prepared_df similarities]|]|] eqn:Hscore; try discriminate.
  cbn [bind] in Hret.
  destruct (for_each _ _) as [out|] eqn:Hloop; [|discriminate].
  cbn [bind] in Hret. inversion Hret; subst out; clear Hret.
  exists projects_df, orgs_df, prepared_df, similarities.
  repeat split; assumption.
Qed.

Lemma for_each_blocks {A B : Type} (body : A -> outcome (list B)) (l : list A)
    (out : list B) :
  for_each body l = Returned out ->
  exists blocks,
    Forall2 (fun a b => body a = Returned b) l blocks /\ out = List.concat blocks.
Proof.
  revert out; induction l as [|a l IH]; intros out; simpl.
  - intros E. inversion E. exists []. split; [constructor|reflexivity].
  - destruct (body a) as [rs|] eqn:Ha; [|discriminate]. cbn [bind].
    destruct (for_each body l) as [rest|]; [|discriminate]. cbn [bind].
    intros E. inversion E; subst.
    destruct (IH rest eq_refl) as [blocks [Hall ->]].
    exists (rs :: blocks). split; [constructor; assumption|reflexivity].
Qed.

Lemma Forall2_In_r {A B : Type} (P : A -> B -> Prop) (l : list A) (l' : list B)
    (b : B) :
  Forall2 P l l' -> In b l' -> exists a, In a l /\ P a b.
Proof.
  induction 1 as [|x y l l' Hxy Hall IH]; intros Hin; [destruct Hin|].
  destruct Hin as [<-|Hin].
  - exists x. split; [left; reflexivity|assumption].
  - destruct (IH Hin) as [a [Ha Pa]]. exists a. split; [right|]; assumption.
Qed.

Lemma sorted_blocks {A B : Type} (R : A -> A -> Prop) (Q : B -> B -> Prop)
    (P : A -> list B -> Prop) (l : list A) (blocks : list (list B)) :
  (forall a b, P a b -> StronglySorted Q b) ->
  (forall a a' b b' x y, R a a' -> P a b -> P a' b' -> In x b -> In y b' -> Q x y) ->
  StronglySorted R l -> Forall2 P l blocks ->
  StronglySorted Q (List.concat blocks).
Proof.
  intros Hin Hcross Hs Hall. induction Hall as [|a b l blocks Hab Hall IH]; simpl.
  - constructor.
  - inversion Hs as [|? ? Hs' Ha]; subst.
    apply StronglySorted_app; [eapply Hin; eassumption|apply IH; assumption|].
    intros x y Hx Hy. apply in_concat in Hy. destruct Hy as [b' [Hb' Hy]].
    destruct (Forall2_In_r _ _ _ _ Hall Hb') as [a' [Ha' Pa']].
    rewrite Forall_forall in Ha.
    eapply Hcross; [apply Ha; eassumption|exact Hab|exact Pa'|assumption|assumption].
Qed.

Lemma find_coordinators_loaded (files : Files) (projects_df orgs_df : DataFrame)
    (query : string) (n_top : Z) :
  load_tables files = Returned (Some (projects_df, orgs_df)) ->
  find_coordinators stop_words argsort files query n_top
  = find_in_tables stop_words argsort projects_df orgs_df query n_top.
Proof. intros Hl. unfold find_coordinators. rewrite Hl. reflexivity. Qed.

Lemma find_in_tables_returns (projects_df orgs_df prepared_df : DataFrame)
    (query : string) (n_top : Z) (similarities : list F) :
  argsort_contract argsort ->
  score_projects stop_words projects_df query
  = Returned (Some (prepared_df, similarities)) ->
  lookup_runs orgs_df = true ->
  find_in_tables stop_words argsort projects_df orgs_df query n_top
  = Returned (Some (flat_map (block prepared_df orgs_df similarities)
                             (top_indices argsort similarities n_top))).
Proof.
  intros Hcontract Hscore Hid. unfold find_in_tables. rewrite Hscore. cbn [bind].
  rewrite (for_each_returns _ (block prepared_df orgs_df similarities));
    [reflexivity|].
  intros idx Hin. apply (top_indices_in_range _ Hcontract) in Hin.
  apply report_project_returns; [|assumption|assumption].
  rewrite <- (score_projects_lengths _ _ _ _ _ Hscore). assumption.
Qed.

Lemma find_in_tables_raises (projects_df orgs_df prepared_df : DataFrame)
    (query : string) (n_top : Z) (similarities : list F) :
  argsort_contract argsort ->
  score_projects stop_words projects_df query
  = Returned (Some (prepared_df, similarities)) ->
  top_indices argsort similarities n_top <> [] ->
  has_column orgs_df "projectID" = false ->
  find_in_tables stop_words argsort projects_df orgs_df query n_top
  = Raised (KeyError "projectID").
Proof.
  intros Hcontract Hscore Hfirst Hid. unfold find_in_tables.
  rewrite Hscore. cbn [bind].
  destruct (top_indices argsort similarities n_top) as [|idx rest] eqn:Htop;
    [contradiction|].
  assert (Hin : idx < List.length similarities).
  { apply (top_indices_in_range _ Hcontract similarities n_top).
    rewrite Htop. left; reflexivity. }
  rewrite (for_each_raises_first _ idx rest (KeyError "projectID"));
    [reflexivity|].
  apply report_project_raises; [|assumption|assumption].
  rewrite <- (score_projects_lengths _ _ _ _ _ Hscore). assumption.
Qed.

End PipelineFacts.

(** * The stated properties *)

Section Claims.

Context {F : Type} `{Float64Laws F} {U : Unicode}.
Variable stop_words : list string.
Variable argsort : list F -> list nat.

Lemma Forall2_map_In {A B : Type} (P : A -> B -> Prop) (f : A -> B) (l : list A) :
  (forall a, In a l -> P a (f a)) -> Forall2 P l (map f l).
Proof.
  induction l as [|a l IH]; intros HP; simpl; constructor.
  - apply HP. left; reflexivity.
  - apply IH. intros b Hb. apply HP. right; assumption.
Qed.

Lemma score_projects_nonempty (projects_df prepared_df : DataFrame)
    (query : string) (similarities : list F) :
  score_projects stop_words projects_df query
  = Returned (Some (prepared_df, similarities)) ->
  similarities <> [].
Proof.
  rewrite score_projects_spec.
  destruct (present_text_columns projects_df); [discriminate|].
  destruct (vocabulary stop_words (corpus_of projects_df)) eqn:Hv; [discriminate|].
  intros E. inversion E; subst. intros Hnil.
  apply (f_equal (@List.length F)) in Hnil.
  rewrite similarities_of_length in Hnil. simpl in Hnil.
  apply length_zero_iff_nil in Hnil.
  unfold corpus_of in Hv. rewrite Hnil in Hv. discriminate.
Qed.

(** C2.  Every ranked match has its rows in the output: an output the
    function returns is the rows of the ranked projects, project after
    project in rank order; a project for which the look-up returns
    coordinators has one row per coordinator, a project for which it returns
    none has exactly one row, whose coordinator name is "None found". *)
Theorem every_ranked_project_reported (files : Files) (query : string)
    (n_top : Z) (results : list ResultRow) :
  find_coordinators stop_words argsort files query n_top
  = Returned (Some results) ->
  exists projects_df orgs_df prepared_df similarities blocks,
    load_tables files = Returned (Some (projects_df, orgs_df))
    /\ score_projects stop_words projects_df query
       = Returned (Some (prepared_df, similarities))
    /\ results = List.concat blocks
    /\ Forall2
         (fun idx rows_of_project =>
            exists project coordinators,
              iloc prepared_df idx = Returned project
              /\ project_coordinators orgs_df (project_id_of project)
                 = Returned coordinators
              /\ rows_of_project <> []
              /\ Forall (fun row => project_id row = project_id_of project)
                        rows_of_project
              /\ match iterrows coordinators with
                 | [] => exists row,
                     rows_of_project = [row]
                     /\ coordinator_name row = Str "None found"
                 | orgs =>
                     rows_of_project
                     = map (coordinator_row (score_at similarities idx) project)
                           orgs
                 end)
         (top_indices argsort similarities n_top) blocks.
Proof.
  intros Hret. apply find_coordinators_returned in Hret.
  destruct Hret as [projects_df [orgs_df [prepared_df [similarities
                     [Hload [Hscore Hloop]]]]]].
  apply for_each_blocks in Hloop. destruct Hloop as [blocks [Hall ->]].
  exists projects_df, orgs_df, prepared_df, similarities, blocks.
  split; [exact Hload|]. split; [exact Hscore|]. split; [reflexivity|].
  eapply Forall2_impl; [|exact Hall]. clear Hall.
  intros idx rs Hrs. cbv beta in Hrs.
  apply report_project_returned in Hrs.
  destruct Hrs as [project [coordinators [Hiloc [Hlook ->]]]].
  exists project, coordinators.
  split; [exact Hiloc|]. split; [exact Hlook|].
  split; [|split].
  - rewrite (rows_for_returned _ _ _ _ _ Hlook).
    destruct (iterrows _); discriminate.
  - eapply Forall_impl; [|apply rows_for_score]. intros row [_ Hp]. exact Hp.
  - rewrite (rows_for_returned _ _ _ _ _ Hlook).
    destruct (iterrows _); [|reflexivity].
    eexists. split; reflexivity.
Qed.

(** C4 (as amended).  If none of the columns title, objective, topics is
    in the projects table the function works on, it builds no corpus and
    raises nothing: it returns [None]. *)
Theorem no_text_columns_returns_none (files : Files)
    (projects_df orgs_df : DataFrame) (query : string) (n_top : Z) :
  load_tables files = Returned (Some (projects_df, orgs_df)) ->
  has_column projects_df "title" = false ->
  has_column projects_df "objective" = false ->
  has_column projects_df "topics" = false ->
  find_coordinators stop_words argsort files query n_top = Returned None.
Proof.
  intros Hload H1 H2 H3.
  rewrite (find_coordinators_loaded _ _ _ _ _ _ _ Hload).
  unfold find_in_tables. rewrite score_projects_spec.
  rewrite (present_text_columns_empty _ H1 H2 H3). reflexivity.
Qed.

(** C10.  When the organizations table has no [projectID] column and the
    ranking has a first match, the look-up for that match raises
    [KeyError], and so does the function: no sentinel row and no empty
    match set is produced. *)
Theorem missing_linkage_column_raises (files : Files)
    (projects_df orgs_df prepared_df : DataFrame) (query : string) (n_top : Z)
    (similarities : list F) (first : nat) (others : list nat) :
  argsort_contract argsort ->
  load_tables files = Returned (Some (projects_df, orgs_df)) ->
  score_projects stop_words projects_df query
  = Returned (Some (prepared_df, similarities)) ->
  top_indices argsort similarities n_top = first :: others ->
  has_column orgs_df "projectID" = false ->
  (exists project,
      iloc prepared_df first = Returned project
      /\ project_coordinators orgs_df (project_id_of project)
         = Raised (KeyError "projectID"))
  /\ find_coordinators stop_words argsort files query n_top
     = Raised (KeyError "projectID").
Proof.
  intros Hcontract Hload Hscore Htop Hid. split.
  - exists (project_at prepared_df first). split.
    + apply iloc_in_range.
      rewrite <- (score_projects_lengths _ _ _ _ _ Hscore).
      apply (top_indices_in_range _ Hcontract similarities n_top).
      rewrite Htop. left; reflexivity.
    + apply project_coordinators_raises; assumption.
  - rewrite (find_coordinators_loaded _ _ _ _ _ _ _ Hload).
    apply (find_in_tables_raises _ _ _ _ prepared_df _ _ similarities);
      try assumption.
    rewrite Htop. discriminate.
Qed.

(** C9.  With [n_top = 0] the slice keeps the whole index sort: every
    project of the corpus is ranked, each contributes at least one row,
    and, on an organizations table the look-up can run on, the function
    returns these rows: the output is not empty. *)
Theorem top_zero_reports_whole_corpus (files : Files)
    (projects_df orgs_df prepared_df : DataFrame) (query : string)
    (similarities : list F) :
  argsort_contract argsort ->
  load_tables files = Returned (Some (projects_df, orgs_df)) ->
  score_projects stop_words projects_df query
  = Returned (Some (prepared_df, similarities)) ->
  lookup_runs orgs_df = true ->
  top_indices argsort similarities 0 = rev (argsort similarities)
  /\ Permutation (top_indices argsort similarities 0)
                 (seq 0 (List.length (rows prepared_df)))
  /\ (forall idx, block prepared_df orgs_df similarities idx <> [])
  /\ exists results,
       find_coordinators stop_words argsort files query 0
       = Returned (Some results)
       /\ results = flat_map (block prepared_df orgs_df similarities)
                             (top_indices argsort similarities 0)
       /\ results <> [].
Proof.
  intros Hcontract Hload Hscore Hid.
  assert (Hblock : forall idx, block prepared_df orgs_df similarities idx <> []).
  { intros idx. unfold block. cbv zeta. rewrite (rows_for_shape _ _ _ _ Hid).
    destruct (iterrows _); discriminate. }
  split; [apply top_indices_zero|].
  split; [rewrite <- (score_projects_lengths _ _ _ _ _ Hscore);
          apply top_indices_zero_all; assumption|].
  split; [exact Hblock|].
  eexists. split; [|split; [reflexivity|]].
  - rewrite (find_coordinators_loaded _ _ _ _ _ _ _ Hload).
    apply (find_in_tables_returns _ _ _ _ _ _ _ _ Hcontract Hscore Hid).
  - pose proof (score_projects_nonempty _ _ _ _ Hscore) as Hne.
    pose proof (top_indices_zero_all _ Hcontract similarities) as Hperm.
    destruct (top_indices argsort similarities 0) as [|idx rest].
    + apply Permutation_length in Hperm. rewrite length_seq in Hperm.
      simpl in Hperm. symmetry in Hperm. apply length_zero_iff_nil in Hperm.
      contradiction.
    + simpl. intros Hnil. apply app_eq_nil in Hnil.
      apply (Hblock idx). tauto.
Qed.

(** C6.  In every result sequence the function returns, the score of a
    row is greater than or equal to the score of the row after it. *)
Theorem scores_non_increasing (files : Files) (query : string) (n_top : Z)
    (results : list ResultRow) (i : nat) (earlier later : ResultRow) :
  argsort_contract argsort ->
  find_coordinators stop_words argsort files query n_top
  = Returned (Some results) ->
  nth_error results i = Some earlier ->
  nth_error results (S i) = Some later ->
  fleb (similarity_score later) (similarity_score earlier) = true.
Proof.
  intros Hcontract Hret. unfold find_coordinators in Hret.
  destruct (load_tables files) as [[[projects_df orgs_df]|]|];
    try discriminate. cbn [bind] in Hret.
  unfold find_in_tables in Hret.
  destruct (score_projects stop_words projects_df query)
    as [[[prepared_df similarities]|]|]; try discriminate.
  cbn [bind] in Hret.
  destruct (for_each _ _) as [out|] eqn:Hloop; [|discriminate].
  cbn [bind] in Hret. inversion Hret; subst out; clear Hret.
  apply for_each_blocks in Hloop. destruct Hloop as [blocks [Hall ->]].
  apply (StronglySorted_adjacent
           (fun x y => fleb (similarity_score y) (similarity_score x) = true)).
  eapply (sorted_blocks
            (fun a b => fleb (score_at similarities b)
                             (score_at similarities a) = true));
    [| |apply (top_indices_descending _ Hcontract similarities n_top)|exact Hall].
  - intros idx b Hb. simpl in Hb. apply report_project_scores in Hb.
    rewrite Forall_forall in Hb.
    apply StronglySorted_all_related. intros x y Hx Hy.
    rewrite (Hb x Hx), (Hb y Hy). apply fleb_refl.
  - intros a a' b b' x y Hle Hb Hb' Hx Hy. simpl in Hb, Hb'.
    apply report_project_scores in Hb, Hb'.
    rewrite Forall_forall in Hb, Hb'.
    rewrite (Hb x Hx), (Hb' y Hy). apply round4_mono. exact Hle.
Qed.

(** C3 (as amended).  The ranked matches are in non-increasing order of
    similarity, whatever order the index sort leaves equal scores in. *)
Theorem ranking_order (similarities : list F) (n_top : Z) :
  argsort_contract argsort ->
  StronglySorted
    (fun i j => fleb (score_at similarities j) (score_at similarities i) = true)
    (top_indices argsort similarities n_top).
Proof. intros Hcontract. apply top_indices_descending; assumption. Qed.

(** C7 (as amended).  For every corpus with a non-empty vocabulary, a query
    none of whose terms is in the vocabulary is scored without an error:
    every project gets similarity 0.0; for [n_top >= 1] the ranking has
    [min n_top (corpus size)] projects, and on an organizations table the
    look-up can run on the function returns their rows, all with score
    0.0. *)
Theorem unknown_query_scores_zero (files : Files)
    (projects_df orgs_df : DataFrame) (query : string) (n_top : Z) :
  argsort_contract argsort ->
  load_tables files = Returned (Some (projects_df, orgs_df)) ->
  has_column projects_df "title" = true
  \/ has_column projects_df "objective" = true
  \/ has_column projects_df "topics" = true ->
  vocabulary stop_words (corpus_of projects_df) <> [] ->
  (forall t, In t (analyze stop_words query) ->
             ~ In t (vocabulary stop_words (corpus_of projects_df))) ->
  (1 <= n_top)%Z ->
  let corpus_size := List.length (rows projects_df) in
  let similarities := repeat fzero corpus_size in
  score_projects stop_words projects_df query
  = Returned (Some (prepared projects_df, similarities))
  /\ List.length (top_indices argsort similarities n_top)
     = Nat.min (Z.to_nat n_top) corpus_size
  /\ (lookup_runs orgs_df = true ->
      exists results,
        find_coordinators stop_words argsort files query n_top
        = Returned (Some results)
        /\ results = flat_map (block (prepared projects_df) orgs_df similarities)
                              (top_indices argsort similarities n_top)
        /\ Forall (fun row => similarity_score row = fzero) results).
Proof.
  intros Hcontract Hload Htext Hvocab Hunknown Hn corpus_size similarities.
  assert (Hscore : score_projects stop_words projects_df query
                   = Returned (Some (prepared projects_df, similarities))).
  { rewrite score_projects_spec.
    rewrite (similarities_of_unknown_terms _ _ _ Hunknown).
    apply present_text_columns_nonempty in Htext.
    destruct (present_text_columns projects_df); [contradiction|].
    destruct (vocabulary stop_words (corpus_of projects_df)); [contradiction|].
    reflexivity. }
  split; [exact Hscore|]. split.
  - rewrite (top_indices_length _ Hcontract) by lia.
    unfold similarities. rewrite repeat_length. reflexivity.
  - intros Hid. eexists. split; [|split; [reflexivity|]].
    + rewrite (find_coordinators_loaded _ _ _ _ _ _ _ Hload).
      apply (find_in_tables_returns _ _ _ _ _ _ _ _ Hcontract Hscore Hid).
    + apply Forall_forall. intros row Hin. apply in_flat_map in Hin.
      destruct Hin as [idx [_ Hin]]. unfold block in Hin. cbv zeta in Hin.
      pose proof (rows_for_score (score_at similarities idx)
                    (project_at (prepared projects_df) idx)
                    (coordinators_of orgs_df
                       (project_id_of (project_at (prepared projects_df) idx))))
        as Hrows.
      rewrite Forall_forall in Hrows. destruct (Hrows row Hin) as [-> _].
      unfold score_at, similarities.
      replace (nth idx (repeat fzero corpus_size) fzero) with (fzero : F);
        [apply round4_zero|].
      clear. induction corpus_size as [|k IH] in idx |- *; destruct idx;
        simpl; auto.
Qed.

End Claims.

(** * The properties on the example tables

    The runs below use the fixed-point scores, the insertion sort as the
    index sort, the ASCII texts and the tables of [Examples]. *)

Lemma example_tables_loaded :
  load_tables (Examples.files Examples.projects Examples.organizations)
  = Returned (Some (Examples.projects, Examples.organizations)).
Proof. reflexivity. Qed.

Lemma example_scores (query : string) :
  score_projects (F := Z) (U := ascii_text) Examples.stop_words
                 Examples.projects query
  = Returned (Some (prepared Examples.projects,
                    similarities_of (U := ascii_text) Examples.stop_words
                                    Examples.projects query)).
Proof. rewrite score_projects_spec. reflexivity. Qed.

Lemma ranked_tables_loaded (orgs_df : DataFrame) :
  load_tables (Examples.files Examples.ranked_projects orgs_df)
  = Returned (Some (Examples.ranked_projects, orgs_df)).
Proof. reflexivity. Qed.

Lemma ranked_scores (query : string) :
  score_projects (F := Z) (U := ascii_text) Examples.stop_words
                 Examples.ranked_projects query
  = Returned (Some (prepared Examples.ranked_projects,
                    similarities_of (U := ascii_text) Examples.stop_words
                                    Examples.ranked_projects query)).
Proof. rewrite score_projects_spec. reflexivity. Qed.

Lemma ranked_similarities :
  similarities_of (F := Z) (U := ascii_text) Examples.stop_words
                  Examples.ranked_projects "climate AI modeling"
  = [1000000000001; 224324998975; 0]%Z.
Proof. vm_compute. reflexivity. Qed.

Lemma example_run_climate :
  Examples.run Examples.ranked_projects Examples.ranked_organizations
               "climate AI modeling" 3
  = Returned (Some Examples.climate_rows).
Proof. vm_compute. reflexivity. Qed.

Lemma every_ranked_project_reported_witness :
  map coordinator_name Examples.climate_rows
  = [Str "OrgA"; Str "None found"; Str "OrgB"]
  /\ exists projects_df orgs_df prepared_df similarities blocks,
       load_tables (Examples.files Examples.ranked_projects
                                   Examples.ranked_organizations)
       = Returned (Some (projects_df, orgs_df))
       /\ score_projects (F := Z) (U := ascii_text) Examples.stop_words
                         projects_df "climate AI modeling"
          = Returned (Some (prepared_df, similarities))
       /\ Examples.climate_rows = List.concat blocks
       /\ Forall2
            (fun idx rows_of_project =>
               exists project coordinators,
                 iloc prepared_df idx = Returned project
                 /\ project_coordinators orgs_df (project_id_of project)
                    = Returned coordinators
                 /\ rows_of_project <> []
                 /\ Forall (fun row => project_id row = project_id_of project)
                           rows_of_project
                 /\ match iterrows coordinators with
                    | [] => exists row,
                        rows_of_project = [row]
                        /\ coordinator_name row = Str "None found"
                    | orgs =>
                        rows_of_project
                        = map (coordinator_row (score_at similarities idx)
                                               project) orgs
                    end)
            (top_indices insertion_argsort similarities 3) blocks.
Proof.
  split; [reflexivity|].
  exact (every_ranked_project_reported (F := Z) (U := ascii_text)
           Examples.stop_words insertion_argsort
           (Examples.files Examples.ranked_projects Examples.ranked_organizations)
           "climate AI modeling" 3 Examples.climate_rows example_run_climate).
Defined.

Lemma ranked_argsort (argsort : list Z -> list nat) :
  argsort_contract argsort ->
  argsort [1000000000001; 224324998975; 0]%Z = [2; 1; 0].
Proof.
  intros Hcontract.
  rewrite (argsort_determined argsort insertion_argsort _ Hcontract
             insertion_argsort_contract); [reflexivity|].
  intros i j Hi Hj. simpl in Hi, Hj.
  destruct i as [|[|[|i]]]; destruct j as [|[|[|j]]]; try lia;
    try reflexivity; vm_compute; discriminate.
Qed.

Lemma ranked_run (argsort : list Z -> list nat) (orgs_df : DataFrame) (n_top : Z) :
  argsort_contract argsort ->
  find_coordinators (U := ascii_text) Examples.stop_words argsort
                    (Examples.files Examples.ranked_projects orgs_df)
                    "climate AI modeling" n_top
  = Examples.run Examples.ranked_projects orgs_df "climate AI modeling" n_top.
Proof.
  intros Hcontract. unfold Examples.run.
  rewrite !(find_coordinators_loaded _ _ _ _ _ _ _ (ranked_tables_loaded orgs_df)).
  unfold find_in_tables. rewrite ranked_scores. cbn [bind].
  unfold top_indices. rewrite ranked_similarities.
  rewrite (ranked_argsort argsort Hcontract),
          (ranked_argsort insertion_argsort insertion_argsort_contract).
  reflexivity.
Qed.

(** C5, at an input where the code departs from it.  On a corpus of three
    projects whose scores for the query are pairwise different, whatever the
    index sort, the output for [n_top = 0] has rows for all three projects,
    where [min 0 3 = 0]; for [n_top = -1] it has rows for two. *)
Theorem top_zero_example (argsort : list Z -> list nat) :
  argsort_contract argsort ->
  let find :=
    find_coordinators (U := ascii_text) Examples.stop_words argsort
      (Examples.files Examples.ranked_projects Examples.ranked_organizations)
      "climate AI modeling" in
  find 0%Z = Returned (Some Examples.all_rows)
  /\ map project_id Examples.all_rows
     = [Num (integer 101) "101"; Num (integer 102) "102";
        Num (integer 103) "103"]
  /\ map project_id (Examples.rows_of (find (-1)%Z))
     = [Num (integer 101) "101"; Num (integer 102) "102"].
Proof.
  intros Hcontract find. unfold find.
  rewrite !(ranked_run argsort _ _ Hcontract).
  repeat split; vm_compute; reflexivity.
Qed.

Lemma top_zero_example_witness :
  Examples.run Examples.ranked_projects Examples.ranked_organizations
               "climate AI modeling" 0
  = Returned (Some Examples.all_rows)
  /\ List.length Examples.all_rows = 3.
Proof.
  split; [|reflexivity].
  exact (proj1 (top_zero_example insertion_argsort insertion_argsort_contract)).
Defined.

Lemma scores_non_increasing_witness :
  map similarity_score Examples.climate_rows
  = [1000000000000; 224300000000; 0]%Z
  /\ match Examples.climate_rows with
     | earlier :: later :: _ =>
         fleb (similarity_score later) (similarity_score earlier) = true
     | _ => False
     end.
Proof.
  split; [reflexivity|].
  exact (scores_non_increasing (F := Z) (U := ascii_text) Examples.stop_words
           insertion_argsort
           (Examples.files Examples.ranked_projects Examples.ranked_organizations)
           "climate AI modeling" 3 Examples.climate_rows 0 _ _
           insertion_argsort_contract example_run_climate eq_refl eq_refl).
Defined.

Lemma ranking_order_witness :
  top_indices insertion_argsort [1; 3; 2]%Z 2 = [1; 2]
  /\ StronglySorted
       (fun i j => fleb (score_at [1; 3; 2]%Z j) (score_at [1; 3; 2]%Z i) = true)
       (top_indices insertion_argsort [1; 3; 2]%Z 2).
Proof.
  split; [reflexivity|].
  exact (ranking_order (F := Z) insertion_argsort [1; 3; 2]%Z 2
           insertion_argsort_contract).
Defined.

(** C3 fails as stated: for a query without vocabulary terms the three
    projects all score 0, and an index sort that meets the contract ranks
    them in the order of rows 2, 1, 0: equal scores are not in corpus row
    order. *)
Lemma equal_scores_not_in_row_order :
  let similarities :=
    similarities_of (F := Z) (U := ascii_text) Examples.stop_words
                    Examples.projects "zzz" in
  similarities = [0; 0; 0]%Z
  /\ argsort_contract (F := Z) insertion_argsort
  /\ top_indices insertion_argsort similarities 3 = [2; 1; 0]
  /\ ~ StronglySorted
         (fun i j => score_at similarities i = score_at similarities j -> i < j)
         (top_indices insertion_argsort similarities 3).
Proof.
  split; [reflexivity|]. split; [apply insertion_argsort_contract|].
  split; [reflexivity|].
  intros Hs.
  change (top_indices insertion_argsort
            (similarities_of (F := Z) (U := ascii_text) Examples.stop_words
                             Examples.projects "zzz") 3)
    with [2; 1; 0] in Hs.
  inversion Hs as [|? ? _ Hall]; subst.
  inversion Hall as [|? ? H21 _]; subst.
  specialize (H21 eq_refl). lia.
Qed.

Lemma no_text_tables_loaded :
  load_tables (Examples.files Examples.no_text Examples.organizations)
  = Returned (Some (Examples.no_text, Examples.organizations)).
Proof. reflexivity. Qed.

Lemma no_text_columns_returns_none_witness :
  Examples.run Examples.no_text Examples.organizations "climate" 5 = Returned None.
Proof.
  exact (no_text_columns_returns_none (F := Z) (U := ascii_text)
           Examples.stop_words insertion_argsort
           (Examples.files Examples.no_text Examples.organizations)
           Examples.no_text Examples.organizations "climate" 5
           no_text_tables_loaded eq_refl eq_refl eq_refl).
Defined.

(** C4 fails as stated: on a projects table with none of the three text
    columns the function raises no error at all; it returns [None]. *)
Lemma no_text_columns_not_an_error :
  has_column Examples.no_text "title" = false
  /\ has_column Examples.no_text "objective" = false
  /\ has_column Examples.no_text "topics" = false
  /\ Examples.run Examples.no_text Examples.organizations "climate" 5
     = Returned None
  /\ forall e,
       Examples.run Examples.no_text Examples.organizations "climate" 5
       <> Raised e.
Proof.
  repeat split. intros e He. vm_compute in He. discriminate.
Qed.

Lemma missing_linkage_column_raises_witness :
  Examples.run Examples.ranked_projects Examples.names_only
               "climate AI modeling" 3
  = Raised (KeyError "projectID").
Proof.
  exact (proj2 (missing_linkage_column_raises (F := Z) (U := ascii_text)
                  Examples.stop_words insertion_argsort
                  (Examples.files Examples.ranked_projects Examples.names_only)
                  Examples.ranked_projects Examples.names_only
                  (prepared Examples.ranked_projects) "climate AI modeling" 3
                  (similarities_of (U := ascii_text) Examples.stop_words
                                   Examples.ranked_projects "climate AI modeling")
                  0 [1; 2]
                  insertion_argsort_contract
                  (ranked_tables_loaded Examples.names_only)
                  (ranked_scores "climate AI modeling") eq_refl eq_refl)).
Defined.

Lemma top_zero_reports_whole_corpus_witness :
  exists results,
    Examples.run Examples.ranked_projects Examples.ranked_organizations
                 "climate AI modeling" 0
    = Returned (Some results)
    /\ map project_id results
       = [Num (integer 101) "101"; Num (integer 102) "102";
          Num (integer 103) "103"]
    /\ results <> [].
Proof.
  destruct (top_zero_reports_whole_corpus (F := Z) (U := ascii_text)
              Examples.stop_words insertion_argsort
              (Examples.files Examples.ranked_projects
                              Examples.ranked_organizations)
              Examples.ranked_projects Examples.ranked_organizations
              (prepared Examples.ranked_projects) "climate AI modeling"
              (similarities_of (U := ascii_text) Examples.stop_words
                               Examples.ranked_projects "climate AI modeling")
              insertion_argsort_contract
              (ranked_tables_loaded Examples.ranked_organizations)
              (ranked_scores "climate AI modeling") eq_refl)
    as [_ [_ [_ [results [Hret [Hrows Hne]]]]]].
  exists results. split; [exact Hret|]. split; [|exact Hne].
  rewrite Hrows. vm_compute. reflexivity.
Defined.

Lemma example_vocabulary :
  vocabulary (U := ascii_text) Examples.stop_words
             (corpus_of Examples.ranked_projects)
  = ["ai"; "climate"; "economics"; "modeling"; "networks"; "policy";
     "quantum"; "sensor"].
Proof. reflexivity. Qed.

Lemma unknown_query_scores_zero_witness :
  exists results,
    Examples.run Examples.ranked_projects Examples.ranked_organizations "zzz" 2
    = Returned (Some results)
    /\ List.length results = 2
    /\ Forall (fun row => similarity_score row = 0%Z) results.
Proof.
  destruct (unknown_query_scores_zero (F := Z) (U := ascii_text)
              Examples.stop_words insertion_argsort
              (Examples.files Examples.ranked_projects
                              Examples.ranked_organizations)
              Examples.ranked_projects Examples.ranked_organizations "zzz" 2
              insertion_argsort_contract
              (ranked_tables_loaded Examples.ranked_organizations)
              (or_introl eq_refl))
    as [_ [_ Hrun]].
  - rewrite example_vocabulary. discriminate.
  - rewrite example_vocabulary. intros t [<-|[]] Hin. simpl in Hin.
    repeat (destruct Hin as [Hin|Hin]; [discriminate|]). exact Hin.
  - lia.
  - destruct (Hrun eq_refl) as [results [Hret [Hrows Hzero]]].
    exists results. split; [exact Hret|]. split; [|exact Hzero].
    rewrite Hrows. vm_compute. reflexivity.
Defined.

(** C7 fails as stated.  A corpus of one non-empty document without any token
    of two characters has an empty vocabulary: fitting raises [ValueError]
    whatever the query.  On a corpus of three projects a query without
    vocabulary terms with [n_top = 5] gets three projects, not five.  And
    with an organizations table whose [role] fields are all empty such a
    query ends in [AttributeError]. *)
Lemma unknown_query_can_fail :
  corpus_of Examples.no_vocabulary = ["a b c"]
  /\ (forall t, In t (analyze (U := ascii_text) Examples.stop_words "zzz") ->
                ~ In t (vocabulary (U := ascii_text) Examples.stop_words
                                   (corpus_of Examples.no_vocabulary)))
  /\ Examples.run Examples.no_vocabulary Examples.organizations "zzz" 1
     = Raised (ValueError
         "empty vocabulary; perhaps the documents only contain stop words")
  /\ List.length
       (top_indices insertion_argsort
          (similarities_of (F := Z) (U := ascii_text) Examples.stop_words
                           Examples.projects "zzz") 5)
     = 3
  /\ Examples.run Examples.ranked_projects Examples.empty_roles "zzz" 1
     = Raised (AttributeError "Can only use .str accessor with string values!").
Proof.
  split; [reflexivity|]. split; [intros t _ Hin; exact Hin|].
  repeat split; vm_compute; reflexivity.
Qed.

(** * Further properties of the pipeline *)

(** ** Rows read through their labels *)

Lemma lookup_series_of (cols : list string) (r : Row) (c : string) :
  lookup c (series_of cols r) = if mem c cols then Some (r c) else None.
Proof.
  induction cols as [|k cols IH]; simpl; [reflexivity|].
  destruct (String.eqb_spec c k) as [->|Hne]; simpl; [reflexivity|exact IH].
Qed.

Lemma get_series_of (cols : list string) (r : Row) (c : string) (default : Cell) :
  get (series_of cols r) c default = if mem c cols then r c else default.
Proof. unfold get. rewrite lookup_series_of. destruct (mem c cols); reflexivity. Qed.

Lemma get_project_at (df : DataFrame) (idx : nat) (c : string) (default : Cell) :
  get (project_at df idx) c default
  = if has_column df c then nth idx (rows df) (fun _ => NaN) c else default.
Proof. unfold project_at. apply get_series_of. Qed.

Lemma nth_zip_with {A B C : Type} (f : A -> B -> C) (l : list A) (l' : list B)
    (i : nat) (a : A) (b : B) (c : C) :
  List.length l = List.length l' -> i < List.length l ->
  nth i (zip_with f l l') c = f (nth i l a) (nth i l' b).
Proof.
  revert l' i; induction l as [|x l IH]; intros [|y l'] i E Hi; simpl in *;
    try lia.
  destruct i as [|i]; [reflexivity|]. apply IH; lia.
Qed.

Lemma StronglySorted_app_cross {A : Type} (R : A -> A -> Prop) (l l' : list A) :
  StronglySorted R (l ++ l') ->
  forall x y, In x l -> In y l' -> R x y.
Proof.
  induction l as [|a l IH]; intros Hs x y Hx Hy; [destruct Hx|].
  simpl in Hs. inversion Hs as [|? ? Hs' Ha]; subst.
  destruct Hx as [<-|Hx].
  - rewrite Forall_forall in Ha. apply Ha. apply in_or_app. right; assumption.
  - apply IH; assumption.
Qed.

Lemma vocabulary_nil {U : Unicode} (stop_words : list string)
    (corpus : list string) :
  (forall doc, In doc corpus -> analyze stop_words doc = []) ->
  vocabulary stop_words corpus = [].
Proof.
  intros Hnone. unfold vocabulary.
  replace (flat_map (analyze stop_words) corpus) with (@nil string); [reflexivity|].
  symmetry. induction corpus as [|doc corpus IH]; simpl; [reflexivity|].
  rewrite (Hnone doc (or_introl eq_refl)). simpl.
  apply IH. intros d Hd. apply Hnone. right; assumption.
Qed.

Section Extras.

Context {F : Type} `{Float64Laws F} {U : Unicode}.
Variable stop_words : list string.
Variable argsort : list F -> list nat.

(** X1.  The ranking keeps the best: every project of the corpus that is
    not among the ranked ones scores no more than any ranked project. *)
Theorem ranked_outscore_the_rest (similarities : list F) (n_top : Z)
    (ranked other : nat) :
  argsort_contract argsort ->
  In ranked (top_indices argsort similarities n_top) ->
  other < List.length similarities ->
  ~ In other (top_indices argsort similarities n_top) ->
  fleb (score_at similarities other) (score_at similarities ranked) = true.
Proof.
  intros Hcontract Hin Hlt Hout. unfold top_indices in Hin, Hout.
  destruct (slice_from_skipn (- n_top) (argsort similarities)) as [k Hk].
  rewrite Hk in Hin, Hout. apply in_rev in Hin.
  assert (Hall : In other (argsort similarities)).
  { apply (Permutation_in _ (Permutation_sym (proj1 (Hcontract similarities)))).
    apply in_seq. lia. }
  rewrite <- (firstn_skipn k (argsort similarities)) in Hall.
  apply in_app_or in Hall. destruct Hall as [Hfirst|Hlast].
  - pose proof (argsort_ascending _ Hcontract similarities) as Hs.
    rewrite <- (firstn_skipn k (argsort similarities)) in Hs.
    exact (StronglySorted_app_cross _ _ _ Hs other ranked Hfirst Hin).
  - exfalso. apply Hout. apply in_rev in Hlast. exact Hlast.
Qed.

(** X2.  For [n_top >= 1] the ranking holds [min n_top (corpus size)]
    projects, each a row of the corpus, none of them twice. *)
Theorem ranked_projects_count (similarities : list F) (n_top : Z) :
  argsort_contract argsort ->
  (1 <= n_top)%Z ->
  List.length (top_indices argsort similarities n_top)
  = Nat.min (Z.to_nat n_top) (List.length similarities)
  /\ NoDup (top_indices argsort similarities n_top)
  /\ (forall idx, In idx (top_indices argsort similarities n_top) ->
                  idx < List.length similarities).
Proof.
  intros Hcontract Hn. split; [|split].
  - apply top_indices_length; [assumption|lia].
  - apply top_indices_NoDup; assumption.
  - intros idx. apply top_indices_in_range; assumption.
Qed.

(** X3.  A negative [n_top] does not select "the last -n": the slice
    [[-n_top:]] then starts at position [-n_top], so the [-n_top]
    lowest-scoring projects are dropped and all the others are ranked. *)
Theorem negative_top_drops_the_lowest (similarities : list F) (n_top : Z) :
  argsort_contract argsort ->
  (n_top < 0)%Z ->
  top_indices argsort similarities n_top
  = rev (skipn (Z.to_nat (- n_top)) (argsort similarities))
  /\ List.length (top_indices argsort similarities n_top)
     = List.length similarities - Z.to_nat (- n_top).
Proof.
  intros Hcontract Hn. unfold top_indices.
  rewrite (slice_from_drop _ _ Hn), (argsort_length _ Hcontract).
  assert (E : skipn (Nat.min (Z.to_nat (- n_top)) (List.length similarities))
                    (argsort similarities)
              = skipn (Z.to_nat (- n_top)) (argsort similarities)).
  { destruct (Nat.le_gt_cases (Z.to_nat (- n_top)) (List.length similarities))
      as [Hle|Hgt].
    - rewrite Nat.min_l by assumption. reflexivity.
    - rewrite Nat.min_r by lia.
      rewrite !skipn_all2; [reflexivity| |];
        rewrite (argsort_length _ Hcontract); lia. }
  rewrite E. split; [reflexivity|].
  rewrite length_rev, length_skipn, (argsort_length _ Hcontract). reflexivity.
Qed.

(** X4.  When [n_top <= -(corpus size)] nothing is ranked and the function
    returns the empty list; the organizations table is then never read, so
    even a table without the [projectID] column raises nothing. *)
Theorem dropping_every_project_returns_empty (files : Files)
    (projects_df orgs_df prepared_df : DataFrame) (query : string) (n_top : Z)
    (similarities : list F) :
  argsort_contract argsort ->
  load_tables files = Returned (Some (projects_df, orgs_df)) ->
  score_projects stop_words projects_df query
  = Returned (Some (prepared_df, similarities)) ->
  (n_top <= - Z.of_nat (List.length similarities))%Z ->
  find_coordinators stop_words argsort files query n_top = Returned (Some []).
Proof.
  intros Hcontract Hload Hscore Hn.
  rewrite (find_coordinators_loaded _ _ _ _ _ _ _ Hload).
  unfold find_in_tables. rewrite Hscore. cbn [bind].
  assert (Htop : top_indices argsort similarities n_top = []).
  { unfold top_indices, slice_from.
    rewrite (argsort_length _ Hcontract).
    destruct (Z.ltb_spec (- n_top) 0) as [Hneg|_]; [lia|].
    rewrite skipn_all2; [reflexivity|].
    rewrite (argsort_length _ Hcontract). lia. }
  rewrite Htop. reflexivity.
Qed.

(** X5.  The project identifier is read from the [projectID] column whenever
    the projects table has one, even where that cell is missing; the [id]
    column is used only when there is no [projectID] column, and "Unknown"
    only when there is neither. *)
Theorem project_id_precedence (projects_df : DataFrame) (idx : nat) :
  project_id_of (project_at projects_df idx)
  = if has_column projects_df "projectID"
    then nth idx (rows projects_df) (fun _ => NaN) "projectID"
    else if has_column projects_df "id"
         then nth idx (rows projects_df) (fun _ => NaN) "id"
         else Str "Unknown".
Proof.
  unfold project_id_of. rewrite !get_project_at. reflexivity.
Qed.

(** X6.  A project whose identifier is missing never gets a coordinator:
    no organization row compares equal to a missing identifier, not even one
    whose [projectID] is missing too, so on an organizations table the
    look-up can run on the project is reported with the single "None found"
    row. *)
Theorem missing_identifier_has_no_coordinator (projects_df orgs_df : DataFrame)
    (similarities : list F) (idx : nat) :
  idx < List.length (rows projects_df) ->
  idx < List.length similarities ->
  lookup_runs orgs_df = true ->
  project_id_of (project_at projects_df idx) = NaN ->
  report_project projects_df orgs_df similarities idx
  = Returned [none_found_row (score_at similarities idx)
                             (project_at projects_df idx)].
Proof.
  intros Hrow Hsim Hid Hnan.
  rewrite (report_project_returns _ _ _ _ Hrow Hsim Hid).
  unfold block. cbv zeta. rewrite (rows_for_shape _ _ _ _ Hid), Hnan.
  unfold coordinators_of, iterrows.
  destruct (has_column orgs_df "role"); [|reflexivity]. simpl.
  replace (filter (coordinator_of NaN) (rows orgs_df)) with (@nil Row);
    [reflexivity|].
  symmetry. induction (rows orgs_df) as [|r rs IH]; simpl; [reflexivity|].
  unfold coordinator_of at 1. destruct (r "projectID"); simpl; exact IH.
Qed.

(** X7.  When the text columns are present but no document has a token (an
    empty table, or only one-letter words and stop words), fitting the
    vectorizer raises [ValueError]; the function neither returns [None] nor
    an empty list. *)
Theorem no_tokens_raises (files : Files) (projects_df orgs_df : DataFrame)
    (query : string) (n_top : Z) :
  load_tables files = Returned (Some (projects_df, orgs_df)) ->
  has_column projects_df "title" = true
  \/ has_column projects_df "objective" = true
  \/ has_column projects_df "topics" = true ->
  (forall r, In r (rows projects_df) ->
             analyze stop_words (joined_text projects_df r) = []) ->
  find_coordinators stop_words argsort files query n_top
  = Raised (ValueError
      "empty vocabulary; perhaps the documents only contain stop words").
Proof.
  intros Hload Htext Hnone.
  rewrite (find_coordinators_loaded _ _ _ _ _ _ _ Hload).
  unfold find_in_tables. rewrite score_projects_spec.
  apply present_text_columns_nonempty in Htext.
  destruct (present_text_columns projects_df); [contradiction|].
  rewrite vocabulary_nil; [reflexivity|].
  intros doc Hdoc. unfold corpus_of in Hdoc. apply in_map_iff in Hdoc.
  destruct Hdoc as [r [<- Hr]]. apply Hnone; assumption.
Qed.

End Extras.

(** ** The prepared table and the sparse rows *)

Lemma has_column_prepared (projects_df : DataFrame) (c : string) :
  c <> "combined_text" ->
  has_column (prepared projects_df) c = has_column projects_df c.
Proof.
  intros Hc. unfold prepared, setitem. unfold has_column at 1. cbn [columns].
  destruct (has_column projects_df "combined_text"); [reflexivity|].
  rewrite existsb_app. cbn [existsb].
  rewrite (proj2 (String.eqb_neq c "combined_text") Hc), !orb_false_r.
  reflexivity.
Qed.

Lemma nth_rows_prepared (projects_df : DataFrame) (idx : nat) (c : string) :
  c <> "combined_text" ->
  nth idx (rows (prepared projects_df)) (fun _ => NaN) c
  = nth idx (rows projects_df) (fun _ => NaN) c.
Proof.
  intros Hc.
  destruct (Nat.lt_ge_cases idx (List.length (rows projects_df))) as [Hlt|Hge].
  - unfold prepared, setitem. cbn [rows].
    assert (Hlen : List.length (rows projects_df)
                   = List.length (map Str (corpus_of projects_df)))
      by (unfold corpus_of; rewrite !length_map; reflexivity).
    pose proof (nth_zip_with
                  (fun (r : Row) (v : Cell) => set_cell "combined_text" v r)
                  (rows projects_df) (map Str (corpus_of projects_df)) idx
                  (fun _ => NaN) NaN (fun _ => NaN) Hlen Hlt) as E.
    apply (f_equal (fun r : Row => r c)) in E. cbv beta in E. rewrite E.
    unfold set_cell. destruct (String.eqb_spec c "combined_text");
      [contradiction|reflexivity].
  - rewrite !nth_overflow; [reflexivity|assumption|].
    rewrite rows_prepared_length. assumption.
Qed.

Section SparseFacts.

Context {F : Type} `{Float64 F} {U : Unicode}.

Lemma count_terms_keys (vocab tokens : list string) (t : string) :
  In t (map fst (count_terms vocab tokens)) -> In t tokens.
Proof.
  unfold count_terms. induction vocab as [|u vocab IH]; simpl; [tauto|].
  rewrite map_app, in_app_iff. intros [Hin|Hin]; [|apply IH; assumption].
  destruct (count_occ string_dec tokens u) as [|k] eqn:Hc; simpl in Hin;
    [destruct Hin|].
  destruct Hin as [<-|[]].
  apply (count_occ_In string_dec). lia.
Qed.

Lemma weigh_keys (v : Vectorizer) (row : SparseRow) :
  map fst (weigh v row) = map fst row.
Proof. unfold weigh. rewrite map_map. reflexivity. Qed.

Lemma normalize_keys (row : SparseRow (F := F)) :
  map fst (normalize row) = map fst row.
Proof.
  unfold normalize. destruct (feqb _ _); [reflexivity|].
  rewrite map_map. reflexivity.
Qed.

Lemma transform_keys (stop_words : list string) (v : Vectorizer) (doc t : string) :
  In t (map fst (transform stop_words v doc)) -> In t (analyze stop_words doc).
Proof.
  unfold transform. rewrite normalize_keys, weigh_keys. apply count_terms_keys.
Qed.

Lemma weight_of_absent (t : string) (row : SparseRow (F := F)) :
  ~ In t (map fst row) -> weight_of t row = None.
Proof.
  induction row as [|[u w] row IH]; simpl; intros Hni; [reflexivity|].
  destruct (String.eqb_spec t u) as [->|Hne]; [exfalso; apply Hni; left; reflexivity|].
  apply IH. intros Hin. apply Hni. right; assumption.
Qed.

Lemma dot_disjoint (q d : SparseRow (F := F)) :
  (forall t, In t (map fst q) -> ~ In t (map fst d)) -> dot q d = fzero.
Proof.
  unfold dot. generalize (fzero : F) as acc.
  induction q as [|e q IH]; intros acc Hdis; simpl; [reflexivity|].
  rewrite weight_of_absent by (apply Hdis; left; reflexivity).
  apply IH. intros t Ht. apply Hdis. right; assumption.
Qed.

End SparseFacts.

Section MoreExtras.

Context {F : Type} `{Float64Laws F} {U : Unicode}.
Variable stop_words : list string.
Variable argsort : list F -> list nat.

(** X8.  Adding the [combined_text] column changes nothing else: the table
    keeps its rows, and every other column reads as before, so the project
    fields of the result rows are those of the loaded table. *)
Theorem preparation_keeps_other_columns (projects_df : DataFrame) (idx : nat)
    (c : string) (default : Cell) :
  c <> "combined_text" ->
  List.length (rows (prepared projects_df)) = List.length (rows projects_df)
  /\ get (project_at (prepared projects_df) idx) c default
     = get (project_at projects_df idx) c default.
Proof.
  intros Hc. split; [apply rows_prepared_length|].
  rewrite !get_project_at, (has_column_prepared _ _ Hc), (nth_rows_prepared _ _ _ Hc).
  reflexivity.
Qed.

(** X9.  A project whose text shares no token with the query has similarity
    0.0, whatever the other projects are. *)
Theorem no_shared_term_scores_zero (projects_df prepared_df : DataFrame)
    (query : string) (similarities : list F) (idx : nat) :
  score_projects stop_words projects_df query
  = Returned (Some (prepared_df, similarities)) ->
  idx < List.length (rows projects_df) ->
  (forall t, In t (analyze stop_words query) ->
             ~ In t (analyze stop_words
                       (joined_text projects_df
                          (nth idx (rows projects_df) (fun _ => NaN))))) ->
  score_at similarities idx = fzero.
Proof.
  rewrite score_projects_spec.
  destruct (present_text_columns projects_df); [discriminate|].
  destruct (vocabulary stop_words (corpus_of projects_df)); [discriminate|].
  intros E Hidx Hdis. inversion E; subst; clear E.
  unfold score_at, similarities_of, cosine_similarity, corpus_of.
  rewrite !map_map.
  set (g := fun r : Row => dot _ _).
  rewrite (nth_indep _ fzero (g (fun _ => NaN)))
    by (rewrite length_map; assumption).
  rewrite (map_nth g). unfold g. apply dot_disjoint.
  intros t Hq Hd. rewrite normalize_keys in Hq, Hd.
  apply transform_keys in Hq, Hd. exact (Hdis t Hq Hd).
Qed.

(** X10.  On an organizations table the look-up can run on, the output has
    one row per coordinator of each ranked project and one row for each
    ranked project without a coordinator; it is never shorter than the
    ranking. *)
Theorem output_row_count (files : Files)
    (projects_df orgs_df prepared_df : DataFrame) (query : string) (n_top : Z)
    (similarities : list F) :
  argsort_contract argsort ->
  load_tables files = Returned (Some (projects_df, orgs_df)) ->
  score_projects stop_words projects_df query
  = Returned (Some (prepared_df, similarities)) ->
  lookup_runs orgs_df = true ->
  exists results,
    find_coordinators stop_words argsort files query n_top
    = Returned (Some results)
    /\ List.length results
       = list_sum
           (map (fun idx =>
                   Nat.max 1
                     (List.length
                        (rows (coordinators_of orgs_df
                                 (project_id_of (project_at prepared_df idx))))))
                (top_indices argsort similarities n_top))
    /\ List.length (top_indices argsort similarities n_top)
       <= List.length results.
Proof.
  intros Hcontract Hload Hscore Hid. eexists. split.
  - rewrite (find_coordinators_loaded _ _ _ _ _ _ _ Hload).
    apply (find_in_tables_returns _ _ _ _ _ _ _ _ Hcontract Hscore Hid).
  - assert (Hblock : forall idx,
               List.length (block prepared_df orgs_df similarities idx)
               = Nat.max 1
                   (List.length
                      (rows (coordinators_of orgs_df
                               (project_id_of (project_at prepared_df idx)))))).
    { intros idx. unfold block. cbv zeta. rewrite (rows_for_shape _ _ _ _ Hid).
      unfold iterrows.
      destruct (rows (coordinators_of orgs_df
                        (project_id_of (project_at prepared_df idx))))
        as [|r rs]; [reflexivity|].
      cbn [map]. cbn [List.length]. rewrite !length_map. reflexivity. }
    induction (top_indices argsort similarities n_top) as [|idx rest [IH1 IH2]];
      simpl; [split; reflexivity|].
    rewrite length_app, Hblock, IH1. split; [reflexivity|]. lia.
Qed.

(** X11.  A coordinator row takes name, country and city from the
    organization's row; where the organizations table has no such column
    the field is "Unknown". *)
Theorem coordinator_fields_default_to_unknown (orgs_df : DataFrame) (r : Row)
    (sim_score : F) (project : Series) :
  let row := coordinator_row sim_score project (series_of (columns orgs_df) r) in
  coordinator_name row
  = (if has_column orgs_df "name" then r "name" else Str "Unknown")
  /\ coordinator_country row
     = (if has_column orgs_df "country" then r "country" else Str "Unknown")
  /\ coordinator_city row
     = (if has_column orgs_df "city" then r "city" else Str "Unknown").
Proof.
  simpl. rewrite !get_series_of. repeat split; reflexivity.
Qed.

End MoreExtras.

(** * Downloading and loading *)

Section WorldFacts.

Import IO.

Lemma content_filter_other (p q : string) (fs : list (string * string)) :
  p <> q ->
  content p (filter (fun e => negb (String.eqb (fst e) q)) fs) = content p fs.
Proof.
  intros Hpq. induction fs as [|[k data] fs IH]; simpl; [reflexivity|].
  destruct (String.eqb_spec k q) as [->|Hkq]; simpl.
  - rewrite (proj2 (String.eqb_neq p q) Hpq). exact IH.
  - rewrite IH. reflexivity.
Qed.

Lemma content_write_same (p data : string) (w : World) :
  content p (files (write_file p data w)) = Some data.
Proof. simpl. rewrite String.eqb_refl. reflexivity. Qed.

Lemma content_write_other (p q data : string) (w : World) :
  p <> q -> content p (files (write_file q data w)) = content p (files w).
Proof.
  intros Hpq. simpl. rewrite (proj2 (String.eqb_neq p q) Hpq).
  apply content_filter_other; assumption.
Qed.

Lemma is_file_write (p q data : string) (w : World) :
  is_file w p = true -> is_file (write_file q data w) p = true.
Proof.
  unfold is_file. destruct (String.eqb_spec p q) as [->|Hpq].
  - rewrite content_write_same. reflexivity.
  - rewrite (content_write_other _ _ _ _ Hpq). tauto.
Qed.

Lemma write_members_keeps (data_dir : string) (ms : list (string * string))
    (w : World) :
  dirs (write_members data_dir ms w) = dirs w
  /\ requested (write_members data_dir ms w) = requested w
  /\ forall p, is_file w p = true -> is_file (write_members data_dir ms w) p = true.
Proof.
  unfold write_members. revert w.
  induction ms as [|m ms IH]; intros w; simpl; [auto|].
  destruct (IH (write_file (join data_dir (fst m)) (snd m) w)) as [Hd [Hr Hf]].
  split; [exact Hd|]. split; [exact Hr|].
  intros p Hp. apply Hf, is_file_write, Hp.
Qed.

Lemma write_members_writes (data_dir name : string) (ms : list (string * string))
    (w : World) :
  In name (map fst ms) ->
  is_file (write_members data_dir ms w) (join data_dir name) = true.
Proof.
  unfold write_members. revert w.
  induction ms as [|m ms IH]; intros w Hin; simpl in *; [destruct Hin|].
  destruct Hin as [<-|Hin]; [|apply IH; assumption].
  apply (proj2 (proj2 (write_members_keeps data_dir ms _))).
  unfold is_file. rewrite content_write_same. reflexivity.
Qed.

Lemma path_exists_file (w : World) (p : string) :
  is_file w p = true -> path_exists w p = true.
Proof. intros Hf. unfold path_exists. rewrite Hf. apply orb_true_r. Qed.

Lemma path_exists_same (w w' : World) (p : string) :
  dirs w' = dirs w -> files w' = files w -> path_exists w' p = path_exists w p.
Proof. intros Hd Hf. unfold path_exists, is_file. rewrite Hd, Hf. reflexivity. Qed.

Lemma with_directory_exists (data_dir : string) (w : World) :
  path_exists (with_directory data_dir w) data_dir = true.
Proof.
  unfold with_directory. destruct (path_exists w data_dir) eqn:He; [exact He|].
  unfold path_exists. simpl. rewrite String.eqb_refl. reflexivity.
Qed.

Lemma with_directory_keeps (data_dir : string) (w : World) :
  files (with_directory data_dir w) = files w
  /\ requested (with_directory data_dir w) = requested w.
Proof.
  unfold with_directory. destruct (path_exists w data_dir); split; reflexivity.
Qed.

Lemma with_directory_idle (data_dir : string) (w : World) :
  path_exists w data_dir = true -> with_directory data_dir w = w.
Proof. intros He. unfold with_directory. rewrite He. reflexivity. Qed.

Lemma extractall_keeps (unzip : Unzip) (zip_path data_dir : string) (w : World) :
  let w' := fst (extractall unzip zip_path data_dir w) in
  dirs w' = dirs w /\ requested w' = requested w
  /\ forall p, is_file w p = true -> is_file w' p = true.
Proof.
  unfold extractall.
  destruct (content zip_path (files w)) as [data|]; [|simpl; auto].
  destruct (unzip data) as [archive|e]; [|simpl; auto].
  pose proof (write_members_keeps data_dir (members archive) w) as Hk.
  destruct (damaged archive); simpl; exact Hk.
Qed.

End WorldFacts.

Section DownloadFacts.

Import IO.

Lemma length_append (a b : string) :
  String.length (a ++ b) = String.length a + String.length b.
Proof. induction a as [|c a IH]; simpl; [reflexivity|]. rewrite IH. reflexivity. Qed.

Lemma join_longer (a b : string) :
  starts_with_slash b = false -> b <> "" -> join a b <> a.
Proof.
  intros Hs Hb E. apply (f_equal String.length) in E. unfold join in E.
  rewrite Hs in E.
  assert (0 < String.length b) by (destruct b; [contradiction|simpl; lia]).
  destruct (String.eqb a "" || ends_with_slash a);
    rewrite ?length_append in E; simpl in E; lia.
Qed.

Lemma path_exists_with_directory (data_dir p : string) (w : World) :
  path_exists w p = true -> path_exists (with_directory data_dir w) p = true.
Proof.
  unfold with_directory. destruct (path_exists w data_dir); [tauto|].
  unfold path_exists. simpl. unfold is_file. simpl.
  intros Hp. destruct (String.eqb p data_dir); [reflexivity|]. exact Hp.
Qed.

Lemma path_exists_with_directory_other (data_dir p : string) (w : World) :
  p <> data_dir ->
  path_exists (with_directory data_dir w) p = path_exists w p.
Proof.
  intros Hp. unfold with_directory. destruct (path_exists w data_dir);
    [reflexivity|].
  unfold path_exists, is_file. simpl.
  rewrite (proj2 (String.eqb_neq p data_dir) Hp). reflexivity.
Qed.

Lemma extractall_requested (unzip : Unzip) (zip_path data_dir : string) (w : World) :
  requested (fst (extractall unzip zip_path data_dir w)) = requested w.
Proof. apply (extractall_keeps unzip zip_path data_dir w). Qed.

Variable net : Network.
Variable unzip : Unzip.
Variable parse : Parser.

(** X12.  When both tables are already in the data directory, nothing is
    requested, no file is written and the function returns. *)
Theorem cached_tables_are_reused (url data_dir : string) (w : World) :
  path_exists w (join data_dir "project.csv") = true ->
  path_exists w (join data_dir "organization.csv") = true ->
  snd (download_and_extract net unzip url data_dir w) = Returned tt
  /\ files (fst (download_and_extract net unzip url data_dir w)) = files w
  /\ requested (fst (download_and_extract net unzip url data_dir w)) = requested w.
Proof.
  intros Hp Ho. unfold download_and_extract. cbv zeta.
  rewrite (path_exists_with_directory _ _ _ Hp),
          (path_exists_with_directory _ _ _ Ho).
  simpl. split; [reflexivity|]. apply with_directory_keeps.
Qed.

(** X13.  An archive that is already in the data directory is never
    downloaded again: the call makes no request, whatever the archive
    holds. *)
Theorem existing_archive_is_not_requested (url data_dir : string) (w : World) :
  path_exists w (join data_dir "cordis.zip") = true ->
  requested (fst (download_and_extract net unzip url data_dir w)) = requested w.
Proof.
  intros Hz. unfold download_and_extract. cbv zeta.
  destruct (path_exists (with_directory data_dir w) (join data_dir "project.csv")
            && path_exists (with_directory data_dir w)
                           (join data_dir "organization.csv")).
  - simpl. apply with_directory_keeps.
  - unfold bind_io.
    rewrite (path_exists_with_directory _ _ _ Hz).
    destruct (extractall unzip (join data_dir "cordis.zip") data_dir
                         (with_directory data_dir w)) as [w' r] eqn:He.
    assert (Hr : requested w' = requested (with_directory data_dir w)).
    { pose proof (extractall_requested unzip (join data_dir "cordis.zip")
                    data_dir (with_directory data_dir w)) as Hk.
      rewrite He in Hk. exact Hk. }
    destruct r; simpl; rewrite Hr; apply with_directory_keeps.
Qed.

(** X14.  When the request itself fails, or the status is an error status,
    the exception is raised to the caller after one request; no file is
    written and nothing is extracted. *)
Theorem failed_request_is_raised (url data_dir : string) (w : World) (e : exn) :
  path_exists w (join data_dir "project.csv")
  && path_exists w (join data_dir "organization.csv") = false ->
  path_exists w (join data_dir "cordis.zip") = false ->
  net url = Raised e
  \/ (exists response,
         net url = Returned response /\ raise_for_status response = Raised e) ->
  snd (download_and_extract net unzip url data_dir w) = Raised e
  /\ files (fst (download_and_extract net unzip url data_dir w)) = files w
  /\ requested (fst (download_and_extract net unzip url data_dir w))
     = url :: requested w.
Proof.
  intros Hcsv Hzip Hfail. unfold download_and_extract. cbv zeta.
  rewrite !path_exists_with_directory_other
    by (apply join_longer; [reflexivity|discriminate]).
  rewrite Hcsv. unfold bind_io.
  rewrite path_exists_with_directory_other
    by (apply join_longer; [reflexivity|discriminate]).
  rewrite Hzip. unfold download.
  destruct (with_directory_keeps data_dir w) as [Hf Hr].
  destruct Hfail as [Hnet|[response [Hnet Hstatus]]]; rewrite Hnet;
    [|rewrite Hstatus]; simpl; rewrite Hf, Hr; repeat split; reflexivity.
Qed.

(** X15.  When the stream breaks after the status check, the exception is
    raised but the chunks received so far stay in the archive file; a later
    call finds that file and makes no request: the download is not tried
    again. *)
Theorem broken_download_is_not_retried (url data_dir : string) (w : World)
    (response : Response) (e : exn) :
  path_exists w (join data_dir "project.csv")
  && path_exists w (join data_dir "organization.csv") = false ->
  path_exists w (join data_dir "cordis.zip") = false ->
  net url = Returned response ->
  raise_for_status response = Returned tt ->
  broken response = Some e ->
  let w1 := fst (download_and_extract net unzip url data_dir w) in
  snd (download_and_extract net unzip url data_dir w) = Raised e
  /\ content (join data_dir "cordis.zip") (files w1)
     = Some (String.concat "" (body response))
  /\ forall (net' : Network) (unzip' : Unzip),
       requested (fst (download_and_extract net' unzip' url data_dir w1))
       = requested w1.
Proof.
  intros Hcsv Hzip Hnet Hstatus Hbroken.
  assert (Hrun : download_and_extract net unzip url data_dir w
                 = (write_file (join data_dir "cordis.zip")
                      (String.concat "" (body response))
                      (mkWorld (dirs (with_directory data_dir w))
                               (files (with_directory data_dir w))
                               (url :: requested (with_directory data_dir w))),
                    Raised e)).
  { unfold download_and_extract. cbv zeta.
    rewrite !path_exists_with_directory_other
      by (apply join_longer; [reflexivity|discriminate]).
    rewrite Hcsv. unfold bind_io.
    rewrite path_exists_with_directory_other
      by (apply join_longer; [reflexivity|discriminate]).
    rewrite Hzip. unfold download. rewrite Hnet, Hstatus, Hbroken. reflexivity. }
  rewrite Hrun. cbv zeta. cbn [fst snd].
  split; [reflexivity|]. split; [apply content_write_same|].
  intros net' unzip'. unfold download_and_extract. cbv zeta.
  set (w1 := write_file _ _ _).
  assert (Hz : path_exists (with_directory data_dir w1) (join data_dir "cordis.zip")
               = true).
  { apply path_exists_with_directory, path_exists_file.
    unfold is_file, w1. rewrite content_write_same. reflexivity. }
  destruct (path_exists (with_directory data_dir w1) (join data_dir "project.csv")
            && path_exists (with_directory data_dir w1)
                           (join data_dir "organization.csv")).
  - simpl. apply with_directory_keeps.
  - unfold bind_io. rewrite Hz.
    destruct (extractall unzip' (join data_dir "cordis.zip") data_dir
                         (with_directory data_dir w1)) as [w' r] eqn:He.
    assert (Hr : requested w' = requested (with_directory data_dir w1)).
    { pose proof (extractall_requested unzip' (join data_dir "cordis.zip")
                    data_dir (with_directory data_dir w1)) as Hk.
      rewrite He in Hk. exact Hk. }
    destruct r; simpl; rewrite Hr; apply with_directory_keeps.
Qed.

End DownloadFacts.

Section LoadingFacts.

Import IO.

Context {F : Type} `{Float64 F} {U : Unicode}.
Variable net : Network.
Variable unzip : Unzip.
Variable parse : Parser.

Lemma read_csv_world (path sep : string) (w : World) :
  fst (read_csv parse path sep w) = w.
Proof. unfold read_csv. destruct (content path (files w)); reflexivity. Qed.

Lemma load_data_after_download (w : World) :
  load_data net unzip parse w
  = match download_and_extract net unzip ZIP_URL "cordis_data" w with
    | (w1, Raised e) => (w1, Raised e)
    | (w1, Returned _) =>
        (w1,
         Returned
           match snd (read_csv parse (join "cordis_data" "project.csv") ";" w1),
                 snd (read_csv parse (join "cordis_data" "organization.csv") ";" w1)
           with
           | Returned projects_df, Returned orgs_df => Some (projects_df, orgs_df)
           | _, _ => None
           end)
    end.
Proof.
  unfold load_data, bind_io.
  destruct (download_and_extract net unzip ZIP_URL "cordis_data" w) as [w1 [[]|e]];
    [|reflexivity].
  pose proof (read_csv_world (join "cordis_data" "project.csv") ";" w1) as H1.
  pose proof (read_csv_world (join "cordis_data" "organization.csv") ";" w1) as H2.
  destruct (read_csv parse (join "cordis_data" "project.csv") ";" w1)
    as [w2 [projects_df|e1]]; simpl in H1; subst w2; [|reflexivity].
  destruct (read_csv parse (join "cordis_data" "organization.csv") ";" w1)
    as [w3 [orgs_df|e2]]; simpl in H2; subst w3; reflexivity.
Qed.

(** X16.  [load_data] raises exactly when the download or the extraction
    raises, and then the same exception: a table that is missing or cannot
    be parsed never makes it raise. *)
Theorem load_data_raises_only_download_errors (w : World) (e : exn) :
  snd (load_data net unzip parse w) = Raised e
  <-> snd (download_and_extract net unzip ZIP_URL "cordis_data" w) = Raised e.
Proof.
  rewrite load_data_after_download.
  destruct (download_and_extract net unzip ZIP_URL "cordis_data" w)
    as [w1 [[]|e']]; simpl; split; intros E; try discriminate;
    inversion E; reflexivity.
Qed.

(** X17.  When, after the download step, one of the two tables is missing
    from the data directory or cannot be parsed, [find_coordinators] returns
    [None] for every query: it raises nothing and tries no other file. *)
Theorem unreadable_table_returns_none (stop_words : list string)
    (argsort : list F -> list nat) (w : World) (query : string) (n_top : Z) :
  let w1 := fst (download_and_extract net unzip ZIP_URL "cordis_data" w) in
  snd (download_and_extract net unzip ZIP_URL "cordis_data" w) = Returned tt ->
  (exists e, snd (read_csv parse (join "cordis_data" "project.csv") ";" w1)
             = Raised e)
  \/ (exists e, snd (read_csv parse (join "cordis_data" "organization.csv") ";" w1)
                = Raised e) ->
  snd (load_data net unzip parse w) = Returned None
  /\ find_coordinators stop_words argsort (snd (files_in net unzip parse w))
                       query n_top
     = Returned None.
Proof.
  intros w1 Hdl Hread. unfold files_in.
  assert (Hload : snd (load_data net unzip parse w) = Returned None).
  { rewrite load_data_after_download. subst w1.
    destruct (download_and_extract net unzip ZIP_URL "cordis_data" w)
      as [w' [[]|e']]; simpl in *; [|discriminate].
    f_equal.
    destruct Hread as [[e He]|[e He]]; rewrite He; [reflexivity|].
    destruct (snd (read_csv parse (join "cordis_data" "project.csv") ";" w'));
      reflexivity. }
  split; [exact Hload|].
  destruct (load_data net unzip parse w) as [w' loaded]. simpl in Hload.
  subst loaded. reflexivity.
Qed.

Lemma path_exists_grows (w w' : World) (p : string) :
  dirs w' = dirs w ->
  (forall q, is_file w q = true -> is_file w' q = true) ->
  path_exists w p = true -> path_exists w' p = true.
Proof.
  intros Hd Hf. unfold path_exists. rewrite Hd.
  intros Hp. apply orb_true_iff in Hp. apply orb_true_iff.
  destruct Hp as [Hp|Hp]; [left; exact Hp|right; apply Hf; exact Hp].
Qed.

(** X18.  After a call that returned, with archives that hold the two
    tables, a second call finds them: it requests nothing, writes nothing
    and leaves the world as it is. *)
Theorem second_call_is_idle (url data_dir : string) (w : World) :
  (forall data archive,
      unzip data = Returned archive ->
      In "project.csv" (map fst (members archive))
      /\ In "organization.csv" (map fst (members archive))) ->
  snd (download_and_extract net unzip url data_dir w) = Returned tt ->
  let w1 := fst (download_and_extract net unzip url data_dir w) in
  forall (net' : Network) (unzip' : Unzip),
    download_and_extract net' unzip' url data_dir w1 = (w1, Returned tt).
Proof.
  intros Hboth Hret w1.
  assert (Hw1 : path_exists w1 data_dir = true
                /\ path_exists w1 (join data_dir "project.csv") = true
                /\ path_exists w1 (join data_dir "organization.csv") = true).
  { subst w1. revert Hret. unfold download_and_extract. cbv zeta.
    pose proof (with_directory_exists data_dir w) as Hdir.
    set (w0 := with_directory data_dir w) in *.
    destruct (path_exists w0 (join data_dir "project.csv")) eqn:Hp;
      [destruct (path_exists w0 (join data_dir "organization.csv")) eqn:Ho|];
      cbn [andb]; [intros _; cbn [fst]; auto| |].
    all: unfold bind_io;
      set (step := if path_exists w0 (join data_dir "cordis.zip")
                   then (w0, Returned tt)
                   else download net url (join data_dir "cordis.zip") w0);
      assert (Hstep : dirs (fst step) = dirs w0
                      /\ forall q, is_file w0 q = true -> is_file (fst step) q = true)
        by (subst step; destruct (path_exists w0 (join data_dir "cordis.zip"));
            [split; [reflexivity|tauto]|];
            unfold download; destruct (net url) as [response|];
            [|split; [reflexivity|tauto]];
            destruct (raise_for_status response); [|split; [reflexivity|tauto]];
            destruct (broken response); cbn [fst];
            (split; [reflexivity|intros q Hq; apply is_file_write; exact Hq]));
      destruct step as [wd [[]|e]]; [|intros E; discriminate E];
      cbn [fst] in Hstep; destruct Hstep as [Hd Hf];
      unfold extractall;
      destruct (content (join data_dir "cordis.zip") (files wd)) as [data|];
      [|intros E; discriminate E];
      destruct (unzip data) as [archive|e] eqn:Hu; [|intros E; discriminate E];
      destruct (damaged archive); [intros E; discriminate E|];
      intros _; cbn [fst];
      destruct (Hboth _ _ Hu) as [Hin1 Hin2];
      destruct (write_members_keeps data_dir (members archive) wd)
        as [Hd' [_ Hf']];
      (split; [apply (path_exists_grows w0);
               [rewrite Hd', Hd; reflexivity
               |intros q Hq; apply Hf', Hf, Hq|exact Hdir]|]);
      split; apply path_exists_file, write_members_writes; assumption. }
  destruct Hw1 as [Hdir [Hp Ho]]. intros net' unzip'.
  unfold download_and_extract. cbv zeta.
  rewrite (with_directory_idle _ _ Hdir), Hp, Ho. reflexivity.
Qed.

End LoadingFacts.

(** * The script body *)

Section ScriptFacts.

Import IO.

Context {F : Type} `{Float64 F} {U : Unicode}.
Variable find : string -> Z -> outcome (option (list (ResultRow (F := F)))).

Lemma nonempty_true (s : string) : nonempty s = true <-> s <> "".
Proof.
  unfold nonempty. rewrite negb_true_iff. apply String.eqb_neq.
Qed.

Lemma search_and_save_saved (args : Args) (line path : string)
    (results : list ResultRow) :
  In (Saved path results) (search_and_save find args line) ->
  csv args = Some path /\ path <> "" /\ results <> []
  /\ str_strip line <> ""
  /\ find (str_strip line) (top args) = Returned (Some results).
Proof.
  unfold search_and_save.
  destruct (nonempty line && nonempty (str_strip line)) eqn:Hq.
  - apply andb_true_iff in Hq. destruct Hq as [_ Hq]. apply nonempty_true in Hq.
    destruct (find (str_strip line) (top args)) as [found|e].
    + intros [E|Hin]; [discriminate|].
      destruct (csv args) as [p|]; [|destruct Hin].
      destruct found as [[|row rows]|]; try destruct Hin.
      destruct (nonempty p) eqn:Hp; [|destruct Hin].
      destruct Hin as [E|[]]. inversion E; subst.
      apply nonempty_true in Hp. repeat split; auto. discriminate.
    + intros [E|[E|[]]]; discriminate.
  - intros [E|[]]; discriminate.
Qed.

Lemma search_and_save_searched (args : Args) (line q : string) (n_top : Z) :
  In (Searched q n_top) (search_and_save find args line) ->
  q = str_strip line /\ q <> "" /\ n_top = top args.
Proof.
  unfold search_and_save.
  destruct (nonempty line && nonempty (str_strip line)) eqn:Hq.
  - apply andb_true_iff in Hq. destruct Hq as [_ Hq]. apply nonempty_true in Hq.
    assert (Hhead : forall tail : list (Event (F := F)),
               In (Searched q n_top) (Searched (str_strip line) (top args) :: tail) ->
               (forall x, In x tail -> x <> Searched q n_top) ->
               q = str_strip line /\ q <> "" /\ n_top = top args).
    { intros tail [E|Hin] Htail.
      - inversion E; subst. auto.
      - exfalso. exact (Htail _ Hin eq_refl). }
    destruct (find (str_strip line) (top args)) as [found|e]; intros Hin;
      apply (Hhead _ Hin).
    + intros x Hx. destruct (csv args) as [p|]; [|destruct Hx].
      destruct found as [[|row rows]|]; try destruct Hx.
      destruct (nonempty p); [|destruct Hx].
      destruct Hx as [<-|[]]. discriminate.
    + intros x [<-|[]]. discriminate.
  - intros [E|[]]; discriminate.
Qed.

Lemma script_events (args : Args) (stdin : list string) (ev : Event) :
  In ev (fst (script find args stdin)) ->
  ev = ErrorReported
  \/ exists line, In ev (search_and_save find args line).
Proof.
  unfold script.
  destruct (query args) as [q|]; [destruct (nonempty q)|];
    try (destruct stdin as [|line rest]; cbn [input]);
    repeat match goal with
           | |- context [input ?l] => destruct (input l) as [[?|] ?]
           end;
    cbn [fst]; intros Hin;
    try (right; eexists; exact Hin);
    try (destruct Hin as [<-|[]]; left; reflexivity).
Qed.

(** X19.  A CSV file is written only under [--csv] with a non-empty name,
    and only with the non-empty list of rows that the search returned for
    the stripped query; a search that returns [None] or no rows writes
    nothing. *)
Theorem csv_is_saved_only_with_results (args : Args) (stdin : list string)
    (path : string) (results : list ResultRow) :
  In (Saved path results) (fst (script find args stdin)) ->
  csv args = Some path /\ path <> "" /\ results <> []
  /\ exists q, q <> "" /\ find q (top args) = Returned (Some results).
Proof.
  intros Hin. apply script_events in Hin.
  destruct Hin as [E|[line Hin]]; [discriminate|].
  apply search_and_save_saved in Hin.
  destruct Hin as [Hc [Hp [Hr [Hq Hf]]]].
  repeat split; try assumption. exists (str_strip line). split; assumption.
Qed.

(** X20.  The search is never given a blank query: whatever the arguments
    and the typed line, a query handed to it is a stripped, non-empty
    string, and comes with the value of [--top]. *)
Theorem searched_query_is_never_blank (args : Args) (stdin : list string)
    (q : string) (n_top : Z) :
  In (Searched q n_top) (fst (script find args stdin)) ->
  q <> "" /\ n_top = top args /\ exists line, q = str_strip line.
Proof.
  intros Hin. apply script_events in Hin.
  destruct Hin as [E|[line Hin]]; [discriminate|].
  apply search_and_save_searched in Hin. destruct Hin as [Hq [Hne Hn]].
  repeat split; try assumption. exists line. exact Hq.
Qed.

(** X21.  Without a usable query nothing is searched or saved: a query
    argument of white space only, or no query argument and a typed line that
    is blank, gives the message "No query provided." and nothing else. *)
Theorem blank_query_is_not_searched (args : Args) (stdin : list string) :
  (exists q, query args = Some q /\ q <> "" /\ str_strip q = "")
  \/ ((query args = None \/ query args = Some "")
      /\ exists line rest, stdin = line :: rest /\ str_strip line = "") ->
  fst (script find args stdin) = [NoQueryProvided].
Proof.
  assert (Hblank : forall line, str_strip line = "" ->
                     search_and_save find args line = [NoQueryProvided]).
  { intros line Hs. unfold search_and_save. rewrite Hs.
    rewrite andb_false_r. reflexivity. }
  unfold script.
  intros [[q [Hq [Hne Hs]]]|[Hq [line [rest [-> Hs]]]]].
  - rewrite Hq. apply nonempty_true in Hne. rewrite Hne.
    rewrite (Hblank q Hs). destruct (input stdin) as [[?|] ?]; reflexivity.
  - destruct Hq as [->| ->]; cbn [nonempty String.eqb negb input];
      rewrite (Hblank line Hs); destruct (input rest) as [[?|] ?]; reflexivity.
Qed.

End ScriptFacts.

(** * The further properties on examples *)

Lemma ranked_outscore_the_rest_witness :
  fleb (score_at [3; 1; 2]%Z 1) (score_at [3; 1; 2]%Z 0) = true.
Proof.
  apply (ranked_outscore_the_rest (F := Z) insertion_argsort [3; 1; 2]%Z 2 0 1
           insertion_argsort_contract).
  - vm_compute. left; reflexivity.
  - simpl. lia.
  - vm_compute. intros [E|[E|[]]]; discriminate.
Defined.

Lemma ranked_projects_count_witness :
  List.length (top_indices insertion_argsort [3; 1; 2]%Z 5) = 3.
Proof.
  exact (proj1 (ranked_projects_count (F := Z) insertion_argsort [3; 1; 2]%Z 5
                  insertion_argsort_contract ltac:(lia))).
Defined.

Lemma negative_top_drops_the_lowest_witness :
  top_indices insertion_argsort [3; 1; 2]%Z (-1) = [0; 2].
Proof.
  exact (proj1 (negative_top_drops_the_lowest (F := Z) insertion_argsort
                  [3; 1; 2]%Z (-1) insertion_argsort_contract ltac:(lia))).
Defined.

Lemma names_only_tables_loaded :
  load_tables (Examples.files Examples.projects Examples.names_only)
  = Returned (Some (Examples.projects, Examples.names_only)).
Proof. reflexivity. Qed.

Lemma dropping_every_project_returns_empty_witness :
  Examples.run Examples.projects Examples.names_only "climate" (-3)
  = Returned (Some []).
Proof.
  apply (dropping_every_project_returns_empty (F := Z) (U := ascii_text)
           Examples.stop_words insertion_argsort
           (Examples.files Examples.projects Examples.names_only)
           Examples.projects Examples.names_only (prepared Examples.projects)
           "climate" (-3)
           (similarities_of (U := ascii_text) Examples.stop_words
                            Examples.projects "climate")
           insertion_argsort_contract names_only_tables_loaded
           (example_scores "climate")).
  rewrite similarities_of_length. simpl. lia.
Defined.

Lemma missing_identifier_has_no_coordinator_witness :
  report_project (F := Z) Cases.projects_without_id Cases.organizations_without_id
                 [0%Z] 0
  = Returned [none_found_row 0%Z (project_at Cases.projects_without_id 0)].
Proof.
  apply (missing_identifier_has_no_coordinator (F := Z)
           Cases.projects_without_id Cases.organizations_without_id [0%Z] 0).
  - simpl. lia.
  - simpl. lia.
  - reflexivity.
  - reflexivity.
Defined.

Lemma no_vocabulary_tables_loaded :
  load_tables (Examples.files Examples.no_vocabulary Examples.organizations)
  = Returned (Some (Examples.no_vocabulary, Examples.organizations)).
Proof. reflexivity. Qed.

Lemma no_tokens_raises_witness :
  Examples.run Examples.no_vocabulary Examples.organizations "climate" 3
  = Raised (ValueError
      "empty vocabulary; perhaps the documents only contain stop words").
Proof.
  apply (no_tokens_raises (F := Z) (U := ascii_text) Examples.stop_words
           insertion_argsort
           (Examples.files Examples.no_vocabulary Examples.organizations)
           Examples.no_vocabulary Examples.organizations "climate" 3
           no_vocabulary_tables_loaded (or_introl eq_refl)).
  intros r [<-|[]]. reflexivity.
Defined.

Lemma preparation_keeps_other_columns_witness :
  get (project_at (prepared Examples.projects) 1) "title" (Str "Unknown")
  = Str "Battery recycling chemistry".
Proof.
  rewrite (proj2 (preparation_keeps_other_columns Examples.projects 1 "title"
                    (Str "Unknown") ltac:(discriminate))).
  reflexivity.
Defined.

Lemma no_shared_term_scores_zero_witness :
  similarities_of (F := Z) (U := ascii_text) Examples.stop_words
                  Examples.ranked_projects "climate AI modeling"
  = [1000000000001; 224324998975; 0]%Z
  /\ score_at (similarities_of (F := Z) (U := ascii_text) Examples.stop_words
                               Examples.ranked_projects "climate AI modeling") 2
     = 0%Z.
Proof.
  split; [exact ranked_similarities|].
  apply (no_shared_term_scores_zero (F := Z) (U := ascii_text)
           Examples.stop_words Examples.ranked_projects
           (prepared Examples.ranked_projects) "climate AI modeling"
           (similarities_of (U := ascii_text) Examples.stop_words
                            Examples.ranked_projects "climate AI modeling") 2
           (ranked_scores "climate AI modeling")).
  - simpl. lia.
  - intros t Hq Hin. simpl in Hq, Hin.
    repeat (destruct Hq as [<-|Hq];
            [repeat (destruct Hin as [Hin|Hin]; [discriminate|]); exact Hin|]).
    exact Hq.
Defined.

Lemma output_row_count_witness :
  exists results,
    Examples.run Examples.ranked_projects Examples.ranked_organizations
                 "climate AI modeling" 3
    = Returned (Some results)
    /\ List.length results = 3.
Proof.
  destruct (output_row_count (F := Z) (U := ascii_text) Examples.stop_words
              insertion_argsort
              (Examples.files Examples.ranked_projects
                              Examples.ranked_organizations)
              Examples.ranked_projects Examples.ranked_organizations
              (prepared Examples.ranked_projects) "climate AI modeling" 3
              (similarities_of (U := ascii_text) Examples.stop_words
                               Examples.ranked_projects "climate AI modeling")
              insertion_argsort_contract
              (ranked_tables_loaded Examples.ranked_organizations)
              (ranked_scores "climate AI modeling") eq_refl)
    as [results [Hret [Hlen _]]].
  exists results. split; [exact Hret|]. rewrite Hlen. vm_compute. reflexivity.
Defined.

Lemma cached_tables_are_reused_witness :
  snd (IO.download_and_extract Cases.offline Cases.tables_archive IO.ZIP_URL
         "cordis_data" Cases.cached_world)
  = Returned tt.
Proof.
  exact (proj1 (cached_tables_are_reused Cases.offline Cases.tables_archive
                  IO.ZIP_URL "cordis_data" Cases.cached_world eq_refl eq_refl)).
Defined.

Lemma existing_archive_is_not_requested_witness :
  IO.requested
    (fst (IO.download_and_extract Cases.offline Cases.tables_archive IO.ZIP_URL
            "cordis_data" Cases.archive_world))
  = [].
Proof.
  exact (existing_archive_is_not_requested Cases.offline Cases.tables_archive
           IO.ZIP_URL "cordis_data" Cases.archive_world eq_refl).
Defined.

Lemma failed_request_is_raised_witness :
  snd (IO.download_and_extract Cases.offline Cases.tables_archive IO.ZIP_URL
         "cordis_data" Cases.empty_world)
  = Raised (OSError "ConnectionError").
Proof.
  exact (proj1 (failed_request_is_raised Cases.offline Cases.tables_archive
                  IO.ZIP_URL "cordis_data" Cases.empty_world
                  (OSError "ConnectionError") eq_refl eq_refl
                  (or_introl eq_refl))).
Defined.

Lemma broken_download_is_not_retried_witness :
  snd (IO.download_and_extract Cases.broken_stream Cases.tables_archive
         IO.ZIP_URL "cordis_data" Cases.empty_world)
  = Raised (OSError "ChunkedEncodingError")
  /\ IO.content "cordis_data/cordis.zip"
       (IO.files
          (fst (IO.download_and_extract Cases.broken_stream Cases.tables_archive
                  IO.ZIP_URL "cordis_data" Cases.empty_world)))
     = Some "PK12".
Proof.
  destruct (broken_download_is_not_retried Cases.broken_stream
              Cases.tables_archive IO.ZIP_URL "cordis_data" Cases.empty_world
              (IO.mkResponse 200 ["PK"; "12"]
                             (Some (OSError "ChunkedEncodingError")))
              (OSError "ChunkedEncodingError")
              eq_refl eq_refl eq_refl eq_refl eq_refl)
    as [Hraised [Hfile _]].
  split; [exact Hraised|exact Hfile].
Defined.

Lemma unreadable_table_returns_none_witness :
  find_coordinators (F := Z) (U := ascii_text) Examples.stop_words
    insertion_argsort
    (snd (IO.files_in Cases.serving Cases.projects_only_archive
                      Cases.parse_tables Cases.empty_world))
    "climate" 3
  = Returned None.
Proof.
  exact (proj2 (unreadable_table_returns_none (F := Z) (U := ascii_text)
                  Cases.serving
                  Cases.projects_only_archive Cases.parse_tables
                  Examples.stop_words insertion_argsort Cases.empty_world
                  "climate" 3 eq_refl
                  (or_intror (ex_intro _ (OSError "No such file or directory")
                                       eq_refl)))).
Defined.

Lemma tables_archive_holds_both (data : string) (archive : IO.Archive) :
  Cases.tables_archive data = Returned archive ->
  In "project.csv" (map fst (IO.members archive))
  /\ In "organization.csv" (map fst (IO.members archive)).
Proof.
  unfold Cases.tables_archive. destruct (String.eqb data "PK"); intros E;
    [|discriminate].
  inversion E; subst. simpl. auto.
Qed.

Lemma second_call_is_idle_witness :
  let w1 := fst (IO.download_and_extract Cases.serving Cases.tables_archive
                   IO.ZIP_URL "cordis_data" Cases.empty_world) in
  IO.requested w1 = [IO.ZIP_URL]
  /\ IO.download_and_extract Cases.offline Cases.tables_archive IO.ZIP_URL
       "cordis_data" w1
     = (w1, Returned tt).
Proof.
  split; [reflexivity|].
  exact (second_call_is_idle Cases.serving Cases.tables_archive IO.ZIP_URL
           "cordis_data" Cases.empty_world tables_archive_holds_both eq_refl
           Cases.offline Cases.tables_archive).
Defined.

Lemma csv_is_saved_only_with_results_witness :
  exists q,
    q <> "" /\ Cases.find_climate q 3 = Returned (Some Examples.climate_rows).
Proof.
  destruct (csv_is_saved_only_with_results (U := ascii_text) Cases.find_climate
              (IO.mkArgs (Some " climate ") 3 (Some "out.csv")) [""]
              "out.csv" Examples.climate_rows)
    as [_ [_ [_ Hq]]].
  - vm_compute. right; left; reflexivity.
  - exact Hq.
Defined.

Lemma searched_query_is_never_blank_witness :
  "climate" <> "" /\ 3%Z = 3%Z /\ exists line, "climate" = strip line.
Proof.
  apply (searched_query_is_never_blank (U := ascii_text) Cases.find_climate
           (IO.mkArgs None 3 None) ["  climate"; ""] "climate" 3).
  vm_compute. left; reflexivity.
Defined.

Lemma blank_query_is_not_searched_witness :
  fst (IO.script (U := ascii_text) Cases.find_climate
                 (IO.mkArgs None 3 (Some "out.csv")) ["   "; ""])
  = [IO.NoQueryProvided].
Proof.
  apply (blank_query_is_not_searched (U := ascii_text) Cases.find_climate).
  right. split; [left; reflexivity|].
  exists "   ", [""]. split; reflexivity.
Defined.

(** * A first run, and the separator fallback *)

Section FirstRun.

Import IO.

Variable net : Network.
Variable unzip : Unzip.
Variable parse : Parser.

Lemma write_members_other (data_dir p : string) (ms : list (string * string))
    (w : World) :
  ~ In p (map (fun m => join data_dir (fst m)) ms) ->
  content p (files (write_members data_dir ms w)) = content p (files w).
Proof.
  unfold write_members. revert w.
  induction ms as [|m ms IH]; intros w Hni; simpl; [reflexivity|].
  rewrite IH by (intros Hin; apply Hni; right; exact Hin).
  apply content_write_other. intros E. apply Hni. left. symmetry; exact E.
Qed.

Lemma write_members_content (data_dir name data : string)
    (ms : list (string * string)) (w : World) :
  NoDup (map (fun m => join data_dir (fst m)) ms) ->
  In (name, data) ms ->
  content (join data_dir name) (files (write_members data_dir ms w)) = Some data.
Proof.
  revert w. induction ms as [|m ms IH]; intros w Hnd Hin; [destruct Hin|].
  simpl in Hnd. inversion Hnd as [|? ? Hni Hnd']; subst.
  destruct Hin as [->|Hin].
  - change (write_members data_dir ((name, data) :: ms) w)
      with (write_members data_dir ms (write_file (join data_dir name) data w)).
    rewrite (write_members_other _ _ _ _ Hni). apply content_write_same.
  - change (write_members data_dir (m :: ms) w)
      with (write_members data_dir ms
              (write_file (join data_dir (fst m)) (snd m) w)).
    apply IH; assumption.
Qed.

(** X22.  A first run loads what the archive holds: when neither the tables
    nor the archive are there, the download succeeds and the archive holds
    [project.csv] and [organization.csv] (each member at its own path),
    [load_data] makes one request and returns the two members parsed with
    the separator ";". *)
Theorem first_run_loads_the_archive (w : World) (response : Response)
    (archive : Archive) (projects_text orgs_text : string)
    (projects_df orgs_df : DataFrame) :
  path_exists w (join "cordis_data" "project.csv")
  && path_exists w (join "cordis_data" "organization.csv") = false ->
  path_exists w (join "cordis_data" "cordis.zip") = false ->
  net ZIP_URL = Returned response ->
  raise_for_status response = Returned tt ->
  broken response = None ->
  unzip (String.concat "" (body response)) = Returned archive ->
  damaged archive = None ->
  NoDup (map (fun m => join "cordis_data" (fst m)) (members archive)) ->
  In ("project.csv", projects_text) (members archive) ->
  In ("organization.csv", orgs_text) (members archive) ->
  parse ";" projects_text = Returned projects_df ->
  parse ";" orgs_text = Returned orgs_df ->
  snd (load_data net unzip parse w) = Returned (Some (projects_df, orgs_df))
  /\ requested (fst (load_data net unzip parse w)) = ZIP_URL :: requested w.
Proof.
  intros Hcsv Hzip Hnet Hstatus Hbroken Hunzip Hdamaged Hnd Hp Ho Hpp Hpo.
  set (wd := write_file (join "cordis_data" "cordis.zip")
               (String.concat "" (body response))
               (mkWorld (dirs (with_directory "cordis_data" w))
                        (files (with_directory "cordis_data" w))
                        (ZIP_URL :: requested (with_directory "cordis_data" w)))).
  assert (Hrun : download_and_extract net unzip ZIP_URL "cordis_data" w
                 = (write_members "cordis_data" (members archive) wd,
                    Returned tt)).
  { unfold download_and_extract. cbv zeta.
    rewrite !path_exists_with_directory_other
      by (apply join_longer; [reflexivity|discriminate]).
    rewrite Hcsv. unfold bind_io.
    rewrite path_exists_with_directory_other
      by (apply join_longer; [reflexivity|discriminate]).
    rewrite Hzip. unfold download. rewrite Hnet, Hstatus, Hbroken.
    fold wd. unfold extractall.
    assert (Hz : content (join "cordis_data" "cordis.zip") (files wd)
                 = Some (String.concat "" (body response)))
      by apply content_write_same.
    rewrite Hz, Hunzip, Hdamaged. reflexivity. }
  rewrite load_data_after_download, Hrun. cbn [fst snd].
  unfold read_csv.
  rewrite (write_members_content _ _ _ _ wd Hnd Hp),
          (write_members_content _ _ _ _ wd Hnd Ho).
  cbn [snd]. rewrite Hpp, Hpo. split; [reflexivity|].
  rewrite (proj1 (proj2 (write_members_keeps "cordis_data" (members archive) wd))).
  unfold wd. cbn [requested write_file].
  rewrite (proj2 (with_directory_keeps "cordis_data" w)). reflexivity.
Qed.

End FirstRun.

Section Fallback.

Context {F : Type} `{Float64 F} {U : Unicode}.
Variable stop_words : list string.
Variable argsort : list F -> list nat.

(** X23.  A projects table that was read into a single column other than
    [title] (the sign of a wrong separator) sends the function to the two
    comma-separated files; when the first of them cannot be read, the
    function raises that error, although both tables had been loaded. *)
Theorem single_column_table_needs_the_fallback_files (files : Files)
    (projects_df orgs_df : DataFrame) (c : string) (query : string) (n_top : Z)
    (e : exn) :
  load_data files = Returned (Some (projects_df, orgs_df)) ->
  columns projects_df = [c] ->
  c <> "title" ->
  read_he_projects files = Raised e ->
  find_coordinators stop_words argsort files query n_top = Raised e.
Proof.
  intros Hload Hcols Hc Hread.
  unfold find_coordinators, load_tables. rewrite Hload. cbn [bind].
  unfold has_column. rewrite Hcols. cbn [existsb List.length Nat.eqb].
  rewrite (proj2 (String.eqb_neq "title" c)) by (intros E; apply Hc; symmetry; exact E).
  cbn [orb negb andb]. rewrite Hread. reflexivity.
Qed.

End Fallback.

Lemma first_run_loads_the_archive_witness :
  snd (IO.load_data Cases.serving Cases.tables_archive Cases.parse_tables
                    Cases.empty_world)
  = Returned (Some (Examples.projects, Examples.organizations)).
Proof.
  refine (proj1 (first_run_loads_the_archive Cases.serving Cases.tables_archive
                   Cases.parse_tables Cases.empty_world
                   (IO.mkResponse 200 ["P"; "K"] None)
                   (IO.mkArchive [("project.csv", "projects");
                                  ("organization.csv", "organizations")] None)
                   "projects" "organizations"
                   Examples.projects Examples.organizations
                   eq_refl eq_refl eq_refl eq_refl eq_refl eq_refl eq_refl
                   _ _ _ eq_refl eq_refl)).
  - simpl. constructor; [intros [E|[]]; discriminate|].
    constructor; [intros []|constructor].
  - left; reflexivity.
  - right; left; reflexivity.
Defined.

Lemma single_column_table_needs_the_fallback_files_witness :
  find_coordinators (F := Z) (U := ascii_text) Examples.stop_words
    insertion_argsort
    (mkFiles (Returned (Some (Examples.names_only, Examples.organizations)))
             Examples.absent Examples.absent)
    "climate" 3
  = Raised (OSError "No such file").
Proof.
  apply (single_column_table_needs_the_fallback_files (F := Z)
           (U := ascii_text) Examples.stop_words insertion_argsort _
           Examples.names_only Examples.organizations "name" "climate" 3).
  - reflexivity.
  - reflexivity.
  - discriminate.
  - reflexivity.
Defined.
